(** * Browser session orchestration of social-auto-upload: a shallow embedding

    The development follows the Python sources
      - utils/bitbrowser_api.py        (module [Api])
      - utils/bitbrowser_connector.py  (module [Connector])
      - utils/browser_helper.py        (module [Helper])
      - myUtils/postVideo.py           (module [PostVideo])
      - conf.example.py                (module [Conf])
    Python values that travel over the wire are JSON values; effects
    (HTTP requests, logging, Playwright calls, sleeping) are recorded in a
    trace carried by a state-and-exception monad; everything the outside
    world decides (HTTP answers, attach results, files, the account
    database) is read from an oracle record [env]. *)

From stdpp Require Import gmap strings list fin_maps.
From Stdlib Require Import ZArith Ascii.

#[local] Set Warnings "-register-all".
#[local] Open Scope string_scope.

(** ** Python values *)

Inductive json : Type :=
| JNull
| JBool (b : bool)
| JNum (n : Z)
| JStr (s : string)
| JArr (items : list json)
| JObj (fields : list (string * json)).

(** Python truthiness: [None], [False], [0], [""], [[]] and [{}] are falsy. *)
Definition truthy (v : json) : bool :=
  match v with
  | JNull => false
  | JBool b => b
  | JNum n => negb (Z.eqb n 0)
  | JStr s => negb (String.eqb s "")
  | JArr items => match items with [] => false | _ => true end
  | JObj fields => match fields with [] => false | _ => true end
  end.

(** [s] is truthy as a Python [str]. *)
Definition str_truthy (s : string) : bool := negb (String.eqb s "").

(** [o] is truthy as a Python [Optional[str]]. *)
Definition opt_truthy (o : option string) : bool :=
  match o with Some s => str_truthy s | None => false end.

(** A dict is an association list with distinct keys, in insertion order. *)
Fixpoint dict_get (k : string) (d : list (string * json)) : option json :=
  match d with
  | [] => None
  | (k', v) :: d' => if String.eqb k k' then Some v else dict_get k d'
  end.

Definition dict_has (k : string) (d : list (string * json)) : bool :=
  match dict_get k d with Some _ => true | None => false end.

(** [d[k] = v]: overwrite in place, or append a new key. *)
Fixpoint dict_set (k : string) (v : json) (d : list (string * json))
  : list (string * json) :=
  match d with
  | [] => [(k, v)]
  | (k', v') :: d' =>
      if String.eqb k k' then (k, v) :: d' else (k', v') :: dict_set k v d'
  end.

(** [d.update(e)] *)
Definition dict_update (d e : list (string * json)) : list (string * json) :=
  fold_left (fun acc kv => dict_set kv.1 kv.2 acc) e d.

Definition json_of_opt_str (o : option string) : json :=
  match o with Some s => JStr s | None => JNull end.

(** ** Exceptions *)

Inductive exn_class : Type :=
| RequestException   (* requests.exceptions.RequestException and subclasses *)
| AttributeError
| TypeError
| ValueError
| KeyError
| PlainException     (* Exception(...) itself *)
| PlaywrightError
| SqliteError
| OSError
| JSONDecodeError    (* json.JSONDecodeError, raised by json.load *)
| CancelledError.    (* asyncio.CancelledError: a BaseException *)

Record exn : Type := Exn { exn_cls : exn_class; exn_msg : string }.

(** [except Exception] catches everything but the BaseException-only classes. *)
Definition is_Exception (c : exn_class) : bool :=
  match c with CancelledError => false | _ => true end.

(** [except requests.exceptions.RequestException] *)
Definition is_RequestException (c : exn_class) : bool :=
  match c with RequestException => true | _ => false end.

Inductive res (A : Type) : Type :=
| Ret (a : A)
| Raise (e : exn).
Arguments Ret {A} a.
Arguments Raise {A} e.

(** ** The world: trace, context heap, module globals *)

Inductive log_level : Type := INFO | WARNING | ERROR.

(** A cookie is identified by name, domain and path. *)
Record cookie : Type := Cookie {
  cookie_name : string;
  cookie_domain : string;
  cookie_path : string;
  cookie_value : string
}.

Definition cookie_key (c : cookie) : string * string * string :=
  (cookie_name c, cookie_domain c, cookie_path c).

(** A browsing context: its cookie store and how many times an
    initialization script was added to it. *)
Record context : Type := Context {
  ctx_cookies : gmap (string * string * string) cookie;
  ctx_init_scripts : nat
}.

(** A Playwright [Browser] handle; [browser_contexts] is [browser.contexts],
    a list of indices into the context heap. *)
Record browser : Type := Browser {
  browser_oid : nat;
  browser_contexts : list nat
}.

Record BitBrowserAPI : Type := MkApi {
  api_oid : nat;            (* object identity *)
  base_url : string
}.

Inductive event : Type :=
| EPost (base endpoint : string) (data : json)
    (* requests.post(urljoin(base, endpoint), json=data, timeout=30) *)
| ELog (lvl : log_level) (msg : string)
| EPrint (msg : string)
| ESleep (seconds : Z)
| EPlaywrightStart
| EConnectCDP (ws : json)
| ELaunch (headless : bool) (executable_path : option string)
| ENewContext (ctx : nat)
| EAddCookies (ctx : nat) (cookies : list cookie)
| EInitScript (ctx : nat)
| EBrowserClose (b : nat).

Record world : Type := World {
  trace : list event;
  contexts : list context;                  (* heap of browsing contexts *)
  _default_api : option BitBrowserAPI;      (* bitbrowser_api._default_api *)
  next_oid : nat
}.

Definition emit (e : event) (w : world) : world :=
  World (trace w ++ [e]) (contexts w) (_default_api w) (next_oid w).

(** ** What the outside world decides *)

Inductive body : Type :=
| NotJson                 (* response.json() fails to decode *)
| Json (j : json).

Inductive http_outcome : Type :=
| Timeout (msg : string)
| ConnectionRefused (msg : string)
| Response (status : Z) (reason : string) (b : body).

Inductive file_state : Type :=
| Absent
| Unreadable (e : exn)    (* open() raises *)
| Garbage                 (* not a JSON document *)
| Document (j : json).

Record user_row : Type := UserRow {
  row_id : Z;
  row_filePath : string;
  row_browser_type : option string;
  row_bitbrowser_id : option string
}.

Inductive db_state : Type :=
| DbFails (e : exn)                 (* connect / execute / fetch raises *)
| DbTable (rows : list user_row).

Record env : Type := Env {
  http : list event -> string -> string -> json -> http_outcome;
  playwright_start : list event -> option exn;
  connect_over_cdp : list event -> json -> res browser;
  launch : list event -> bool -> option string -> res browser;
  browser_close : list event -> nat -> option exn;
  read_file : string -> file_state;
  database : db_state
}.

(** ** The monad *)

Definition M (A : Type) : Type := world -> res A * world.

Definition ret {A} (a : A) : M A := fun w => (Ret a, w).
Definition raise {A} (e : exn) : M A := fun w => (Raise e, w).
Definition bind {A B} (m : M A) (k : A -> M B) : M B :=
  fun w => match m w with
           | (Ret a, w') => k a w'
           | (Raise e, w') => (Raise e, w')
           end.

Notation "'do' x <- m ; k" := (bind m (fun x => k))
  (at level 10, x name, m at level 100, k at level 200).
Notation "m ;; k" := (bind m (fun _ => k))
  (at level 100, k at level 200, right associativity).

(** [try: m except <classes> as e: h e] *)
Definition try_except {A} (m : M A) (classes : exn_class -> bool)
    (h : exn -> M A) : M A :=
  fun w => match m w with
           | (Raise e, w') => if classes (exn_cls e) then h e w' else (Raise e, w')
           | r => r
           end.

Definition tell (e : event) : M unit := fun w => (Ret tt, emit e w).
Definition log (lvl : log_level) (msg : string) : M unit := tell (ELog lvl msg).
Definition lift {A} (r : res A) : M A := fun w => (r, w).
Definition history : M (list event) := fun w => (Ret (trace w), w).

(** [v.get(k)] and [v.get(k, default)] on an arbitrary value: only dicts
    have [get]. *)
Definition py_get (v : json) (k : string) (default : json) : res json :=
  match v with
  | JObj d => Ret (match dict_get k d with Some x => x | None => default end)
  | _ => Raise (Exn AttributeError "object has no attribute 'get'")
  end.

(** [needle in hay] on two Python strings *)
Fixpoint str_contains (needle hay : string) : bool :=
  String.prefix needle hay ||
  match hay with
  | EmptyString => false
  | String _ hay' => str_contains needle hay'
  end.

Definition is_str (s : string) (v : json) : bool :=
  match v with JStr t => String.eqb s t | _ => false end.

(** [k in v] for a string [k] and an arbitrary value [v] *)
Definition py_in (k : string) (v : json) : res bool :=
  match v with
  | JObj d => Ret (dict_has k d)
  | JArr items => Ret (existsb (is_str k) items)
  | JStr s => Ret (str_contains k s)
  | _ => Raise (Exn TypeError "argument is not iterable")
  end.

(** [v[k]] for a string [k] *)
Definition py_index (v : json) (k : string) : res json :=
  match v with
  | JObj d => match dict_get k d with
              | Some x => Ret x
              | None => Raise (Exn KeyError k)
              end
  | JArr _ | JStr _ => Raise (Exn TypeError "indices must be integers")
  | _ => Raise (Exn TypeError "object is not subscriptable")
  end.

(** [v > 0] *)
Definition py_gt0 (v : json) : res json :=
  match v with
  | JNum n => Ret (JBool (Z.ltb 0 n))
  | JBool b => Ret (JBool b)
  | _ => Raise (Exn TypeError "'>' not supported")
  end.

(** ** utils/bitbrowser_api.py *)
Module Api.

(** [str.rstrip('/')] *)
Fixpoint rstrip_slash (s : string) : string :=
  match s with
  | EmptyString => EmptyString
  | String c r =>
      match rstrip_slash r with
      | EmptyString => if Ascii.eqb c "/"%char then EmptyString else String c EmptyString
      | r' => String c r'
      end
  end.

(** [BitBrowserAPI.__init__] *)
Definition init (base : string) : M BitBrowserAPI :=
  fun w =>
    let self := MkApi (next_oid w) (rstrip_slash base) in
    (Ret self,
     emit (ELog INFO ("初始化比特浏览器API: " +:+ base))
       (World (trace w) (contexts w) (_default_api w) (S (next_oid w)))).

Definition request_error_msg (o : http_outcome) : string :=
  match o with
  | Timeout msg => msg
  | ConnectionRefused msg => msg
  | Response _ reason NotJson => "Expecting value: " +:+ reason
  | Response _ reason _ => reason
  end.

(** What [requests.post], [raise_for_status] and [response.json] do with
    an outcome: transport failures, 4xx/5xx statuses and undecodable
    bodies raise subclasses of [RequestException] (the decoding error of
    [response.json] is [requests.exceptions.JSONDecodeError]). *)
Definition post_result (o : http_outcome) : res json :=
  match o with
  | Timeout _ | ConnectionRefused _ =>
      Raise (Exn RequestException (request_error_msg o))
  | Response status _ b =>
      if Z.leb 400 status && Z.ltb status 600
      then Raise (Exn RequestException (request_error_msg o))
      else match b with
           | NotJson => Raise (Exn RequestException (request_error_msg o))
           | Json j => Ret j
           end
  end.

Section WithEnv.
Variable E : env.

(** [BitBrowserAPI._request]; debug-level logging is left out. *)
Definition _request (self : BitBrowserAPI) (endpoint : string)
    (data : option json) : M json :=
  let payload := match data with
                 | Some d => if truthy d then d else JObj []
                 | None => JObj []
                 end in
  try_except
    (do h <- history;
     tell (EPost (base_url self) endpoint payload);;
     lift (post_result (http E h (base_url self) endpoint payload)))
    is_RequestException
    (fun e =>
       log ERROR ("请求失败: " +:+ exn_msg e);;
       ret (JObj [("success", JBool false); ("msg", JStr (exn_msg e))])).

Definition health_check (self : BitBrowserAPI) : M json :=
  do result <- _request self "/health" None;
  lift (py_get result "success" (JBool false)).

Definition default_fingerprint : json :=
  JObj [("coreVersion", JStr "130"); ("ostype", JStr "PC");
        ("os", JStr "Win32"); ("osVersion", JStr "11,10")].

Definition create_browser (self : BitBrowserAPI)
    (browser_config : list (string * json)) : M json :=
  let browser_config :=
    if dict_has "browserFingerPrint" browser_config then browser_config
    else dict_set "browserFingerPrint" default_fingerprint browser_config in
  _request self "/browser/update" (Some (JObj browser_config)).

(** [if result.get("success"): return result.get("data") else None] *)
Definition data_if_success (result : json) : M json :=
  do ok <- lift (py_get result "success" JNull);
  if truthy ok then lift (py_get result "data" JNull) else ret JNull.

Definition open_browser (self : BitBrowserAPI) (browser_id : string)
    (args : option (list string)) (queue : bool)
    (new_page_url : option string) : M json :=
  let args' := match args with Some ((_ :: _) as l) => l | _ => [] end in
  let data := [("id", JStr browser_id);
               ("args", JArr (map JStr args'));
               ("queue", JBool queue)] in
  let data := match new_page_url with
              | Some u => if str_truthy u then dict_set "newPageUrl" (JStr u) data
                          else data
              | None => data
              end in
  do result <- _request self "/browser/open" (Some (JObj data));
  data_if_success result.

Definition close_browser (self : BitBrowserAPI) (browser_id : string) : M json :=
  do result <- _request self "/browser/close" (Some (JObj [("id", JStr browser_id)]));
  lift (py_get result "success" (JBool false)).

Definition delete_browser (self : BitBrowserAPI) (browser_id : string) : M json :=
  do result <- _request self "/browser/delete" (Some (JObj [("id", JStr browser_id)]));
  lift (py_get result "success" (JBool false)).

Definition get_browser_detail (self : BitBrowserAPI) (browser_id : string) : M json :=
  do result <- _request self "/browser/detail" (Some (JObj [("id", JStr browser_id)]));
  data_if_success result.

Definition list_browsers (self : BitBrowserAPI) (page page_size : Z)
    (group_id name : option string) : M json :=
  let data := [("page", JNum page); ("pageSize", JNum (Z.min page_size 100))] in
  let data := if opt_truthy group_id
              then dict_set "groupId" (json_of_opt_str group_id) data else data in
  let data := if opt_truthy name
              then dict_set "name" (json_of_opt_str name) data else data in
  do result <- _request self "/browser/list" (Some (JObj data));
  do ok <- lift (py_get result "success" JNull);
  if truthy ok then
    do d <- lift (py_get result "data" (JObj []));
    lift (py_get d "list" (JArr []))
  else ret JNull.

Definition get_browser_pids (self : BitBrowserAPI) (browser_ids : list string) : M json :=
  do result <- _request self "/browser/pids"
                 (Some (JObj [("ids", JArr (map JStr browser_ids))]));
  do ok <- lift (py_get result "success" JNull);
  if truthy ok then lift (py_get result "data" (JObj [])) else ret (JObj []).

Definition is_browser_opened (self : BitBrowserAPI) (browser_id : string) : M json :=
  do pids <- get_browser_pids self [browser_id];
  do known <- lift (py_in browser_id pids);
  if known then
    do pid <- lift (py_index pids browser_id);
    lift (py_gt0 pid)
  else ret (JBool false).

Definition update_browser_proxy (self : BitBrowserAPI) (browser_ids : list string)
    (proxy_type host : string) (port : Z)
    (proxy_username proxy_password : option string) (proxy_method : Z) : M json :=
  let data := [("ids", JArr (map JStr browser_ids));
               ("proxyMethod", JNum proxy_method);
               ("proxyType", JStr proxy_type);
               ("host", JStr host);
               ("port", JNum port)] in
  let data := if opt_truthy proxy_username
              then dict_set "proxyUserName" (json_of_opt_str proxy_username) data
              else data in
  let data := if opt_truthy proxy_password
              then dict_set "proxyPassword" (json_of_opt_str proxy_password) data
              else data in
  do result <- _request self "/browser/proxy/update" (Some (JObj data));
  lift (py_get result "success" (JBool false)).

Definition reset_browser_status (self : BitBrowserAPI) (browser_id : string) : M json :=
  do result <- _request self "/browser/closing/reset"
                 (Some (JObj [("id", JStr browser_id)]));
  lift (py_get result "success" (JBool false)).

Definition get_cookies (self : BitBrowserAPI) (browser_id : string) : M json :=
  do result <- _request self "/browser/cookies/get"
                 (Some (JObj [("browserId", JStr browser_id)]));
  data_if_success result.

Definition set_cookies (self : BitBrowserAPI) (browser_id : string)
    (cookies : list json) : M json :=
  do result <- _request self "/browser/cookies/set"
                 (Some (JObj [("browserId", JStr browser_id);
                              ("cookies", JArr cookies)]));
  lift (py_get result "success" (JBool false)).

Definition clear_cookies (self : BitBrowserAPI) (browser_id : string)
    (save_synced : bool) : M json :=
  do result <- _request self "/browser/cookies/clear"
                 (Some (JObj [("browserId", JStr browser_id);
                              ("saveSynced", JBool save_synced)]));
  lift (py_get result "success" (JBool false)).

Definition opt_get (k : string) (d : list (string * json)) (default : json) : json :=
  match dict_get k d with Some x => x | None => default end.

Definition create_browser_for_platform (self : BitBrowserAPI)
    (name platform_url : string) (remark : option string)
    (proxy_config : option (list (string * json))) : M json :=
  let browser_config := [("name", JStr name);
                         ("platform", JStr platform_url);
                         ("browserFingerPrint", default_fingerprint)] in
  let browser_config :=
    if opt_truthy remark
    then dict_set "remark" (json_of_opt_str remark) browser_config
    else browser_config in
  let browser_config :=
    match proxy_config with
    | Some ((_ :: _) as pc) =>
        let c := dict_update browser_config
                   [("proxyMethod", JNum 2);
                    ("proxyType", opt_get "type" pc (JStr "socks5"));
                    ("host", opt_get "host" pc JNull);
                    ("port", opt_get "port" pc JNull)] in
        let c := match dict_get "username" pc with
                 | Some u => dict_set "proxyUserName" u c
                 | None => c
                 end in
        match dict_get "password" pc with
        | Some p => dict_set "proxyPassword" p c
        | None => c
        end
    | _ => browser_config
    end in
  do result <- create_browser self browser_config;
  do ok <- lift (py_get result "success" JNull);
  if truthy ok then
    do d <- lift (py_get result "data" (JObj []));
    lift (py_get d "id" JNull)
  else ret JNull.

End WithEnv.

(** [get_bitbrowser_api]: the module-level singleton. *)
Definition get_bitbrowser_api (base : string) : M BitBrowserAPI :=
  fun w =>
    match _default_api w with
    | Some api => (Ret api, w)
    | None =>
        match init base w with
        | (Ret api, w') =>
            (Ret api, World (trace w') (contexts w') (Some api) (next_oid w'))
        | r => r
        end
    end.

End Api.

(** ** Playwright primitives and the init-script helper *)
Module Playwright.

Definition update_context (i : nat) (f : context -> context) : M unit :=
  fun w =>
    match contexts w !! i with
    | Some c => (Ret tt, World (trace w) (<[i := f c]> (contexts w))
                              (_default_api w) (next_oid w))
    | None => (Raise (Exn PlaywrightError "Target closed"), w)
    end.

Definition str_field (k : string) (d : list (string * json)) : option string :=
  match dict_get k d with Some (JStr s) => Some s | _ => None end.

(** One cookie record of a storage-state document. *)
Definition cookie_of_json (v : json) : option cookie :=
  match v with
  | JObj d =>
      match str_field "name" d, str_field "domain" d,
            str_field "path" d, str_field "value" d with
      | Some n, Some dm, Some p, Some x => Some (Cookie n dm p x)
      | _, _, _, _ => None
      end
  | _ => None
  end.

Fixpoint cookies_of_items (items : list json) : option (list cookie) :=
  match items with
  | [] => Some []
  | v :: rest =>
      match cookie_of_json v, cookies_of_items rest with
      | Some c, Some cs => Some (c :: cs)
      | _, _ => None
      end
  end.

Definition cookies_of_json (v : json) : res (list cookie) :=
  match v with
  | JArr items =>
      match cookies_of_items items with
      | Some cs => Ret cs
      | None => Raise (Exn PlaywrightError "cookies: expected cookie records")
      end
  | _ => Raise (Exn PlaywrightError "cookies: expected array")
  end.

(** Storing cookies: a cookie of the same name, domain and path is
    overwritten, every other cookie stays. *)
Definition store_cookies (jar : gmap (string * string * string) cookie)
    (cs : list cookie) : gmap (string * string * string) cookie :=
  foldl (fun j c => <[cookie_key c := c]> j) jar cs.

(** The cookies of a [storage_state] document. *)
Definition cookies_of_state (v : json) : res (list cookie) :=
  match v with
  | JObj d => match dict_get "cookies" d with
              | Some cs => cookies_of_json cs
              | None => Ret []
              end
  | _ => Raise (Exn PlaywrightError "storage_state: expected object")
  end.

Inductive storage_arg : Type :=
| SSNone
| SSPath (p : string)
| SSDict (j : json).

Section WithEnv.
Variable E : env.

(** [async_playwright().start()] *)
Definition start : M unit :=
  do h <- history;
  tell EPlaywrightStart;;
  match playwright_start E h with
  | Some e => raise e
  | None => ret tt
  end.

(** [playwright.chromium.connect_over_cdp(ws)] *)
Definition connect (ws : json) : M browser :=
  do h <- history;
  tell (EConnectCDP ws);;
  lift (connect_over_cdp E h ws).

(** [playwright.chromium.launch(headless=..., executable_path=...)] *)
Definition chromium_launch (headless : bool) (exe : option string) : M browser :=
  do h <- history;
  tell (ELaunch headless exe);;
  lift (launch E h headless exe).

(** [browser.close()] *)
Definition close (b : browser) : M unit :=
  do h <- history;
  tell (EBrowserClose (browser_oid b));;
  match browser_close E h (browser_oid b) with
  | Some e => raise e
  | None => ret tt
  end.

Definition load_state (ss : storage_arg) : res (list cookie) :=
  match ss with
  | SSNone => Ret []
  | SSDict j => cookies_of_state j
  | SSPath p =>
      match read_file E p with
      | Absent => Raise (Exn OSError ("No such file: " +:+ p))
      | Unreadable e => Raise e
      | Garbage => Raise (Exn JSONDecodeError "Expecting value")
      | Document j => cookies_of_state j
      end
  end.

(** [browser.new_context(storage_state=ss)]: a fresh context at the end of
    the heap, seeded with the cookies of [ss]. *)
Definition new_context (b : browser) (ss : storage_arg) : M nat :=
  do cs <- lift (load_state ss);
  fun w =>
    let i := length (contexts w) in
    (Ret i,
     emit (ENewContext i)
       (World (trace w) (contexts w ++ [Context (store_cookies ∅ cs) 0])
              (_default_api w) (next_oid w))).

End WithEnv.

(** [context.add_cookies(cookies)] *)
Definition add_cookies (ctx : nat) (cookies : json) : M unit :=
  do cs <- lift (cookies_of_json cookies);
  update_context ctx
    (fun c => Context (store_cookies (ctx_cookies c) cs) (ctx_init_scripts c));;
  tell (EAddCookies ctx cs).

End Playwright.

(** Modelled from the spec: [utils.base_social_media.set_init_script] is
    not among the sources.  The spec calls it applying the anti-detection
    initialization script to a browsing context; it is modelled as
    [context.add_init_script] on the given context, counted in
    [ctx_init_scripts], and returns the same context. *)
Definition set_init_script (ctx : nat) : M nat :=
  Playwright.update_context ctx
    (fun c => Context (ctx_cookies c) (S (ctx_init_scripts c)));;
  tell (EInitScript ctx);;
  ret ctx.

(** ** utils/bitbrowser_connector.py *)
Module Connector.

Record BitBrowserConnector : Type := MkConnector {
  api : BitBrowserAPI;
  bit_browser_url : string;
  current_browser_id : option string
}.

(** [BitBrowserConnector.__init__] *)
Definition init (bit_browser_url : string) : M BitBrowserConnector :=
  do a <- Api.get_bitbrowser_api bit_browser_url;
  ret (MkConnector a bit_browser_url None).

Definition str_eq_opt (s : string) (o : option string) : bool :=
  match o with Some t => String.eqb s t | None => false end.

Section WithEnv.
Variable E : env.

Definition check_connection (self : BitBrowserConnector) : M json :=
  Api.health_check E (api self).

(** [BitBrowserConnector.open_browser]; the connector is returned with
    the handle because the method assigns [self.current_browser_id]. *)
Definition open_browser (self : BitBrowserConnector) (browser_id : string)
    (headless : bool) (args : option (list string))
  : M (option browser * BitBrowserConnector) :=
  do ok <- check_connection self;
  if negb (truthy ok) then
    log ERROR "无法连接到比特浏览器API";;
    ret (None, self)
  else
    let launch_args := match args with Some ((_ :: _) as l) => l | _ => [] end in
    let launch_args := if headless then (launch_args ++ ["--headless"])%list
                       else launch_args in
    do open_result <- Api.open_browser E (api self) browser_id
                        (Some launch_args) true None;
    if negb (truthy open_result) then
      log ERROR ("打开浏览器窗口失败: " +:+ browser_id);;
      ret (None, self)
    else
      do ws_endpoint <- lift (py_get open_result "ws" JNull);
      if negb (truthy ws_endpoint) then
        log ERROR "未获取到WebSocket连接地址";;
        ret (None, self)
      else
        log INFO ("成功打开浏览器窗口: " +:+ browser_id);;
        Playwright.start E;;
        try_except
          (do b <- Playwright.connect E ws_endpoint;
           log INFO "成功通过Playwright连接到比特浏览器";;
           ret (Some b, MkConnector (api self) (bit_browser_url self)
                          (Some browser_id)))
          is_Exception
          (fun e =>
             log ERROR ("连接Playwright到比特浏览器失败: " +:+ exn_msg e);;
             Api.close_browser E (api self) browser_id;;
             ret (None, self)).

(** [BitBrowserConnector.close_browser] *)
Definition close_browser (self : BitBrowserConnector)
    (browser_id : option string) (delay : Z)
  : M (json * BitBrowserConnector) :=
  let target_id := if opt_truthy browser_id then browser_id
                   else current_browser_id self in
  match target_id with
  | Some target =>
      if str_truthy target then
        tell (ESleep delay);;
        do result <- Api.close_browser E (api self) target;
        if truthy result then
          log INFO ("成功关闭浏览器窗口: " +:+ target);;
          ret (result,
               if str_eq_opt target (current_browser_id self)
               then MkConnector (api self) (bit_browser_url self) None
               else self)
        else
          log ERROR ("关闭浏览器窗口失败: " +:+ target);;
          ret (result, self)
      else
        log WARNING "没有指定要关闭的浏览器ID";;
        ret (JBool false, self)
  | None =>
      log WARNING "没有指定要关闭的浏览器ID";;
      ret (JBool false, self)
  end.

(** [BitBrowserConnector.create_context_from_browser] *)
Definition create_context_from_browser (self : BitBrowserConnector)
    (b : browser) (account_file : option string)
    (storage_state : option json) : M nat :=
  do context <-
    match account_file, storage_state with
    | Some f, _ =>
        if str_truthy f then Playwright.new_context E b (Playwright.SSPath f)
        else match storage_state with
             | Some st => if truthy st
                          then Playwright.new_context E b (Playwright.SSDict st)
                          else Playwright.new_context E b Playwright.SSNone
             | None => Playwright.new_context E b Playwright.SSNone
             end
    | None, Some st =>
        if truthy st then Playwright.new_context E b (Playwright.SSDict st)
        else Playwright.new_context E b Playwright.SSNone
    | None, None => Playwright.new_context E b Playwright.SSNone
    end;
  set_init_script context.

(** The body of [if account_file:] on the reuse path: read the file and
    add its cookies to the existing context. *)
Definition merge_account_file (context : nat) (account_file : option string)
  : M unit :=
  match account_file with
  | Some f =>
      if str_truthy f then
        match read_file E f with
        | Absent => ret tt
        | Unreadable e => raise e
        | Garbage => raise (Exn JSONDecodeError "Expecting value")
        | Document storage_state =>
            do has <- lift (py_in "cookies" storage_state);
            if has then
              do cookies <- lift (py_index storage_state "cookies");
              Playwright.add_cookies context cookies;;
              log INFO "已添加cookies到context"
            else ret tt
        end
      else ret tt
  | None => ret tt
  end.

(** [BitBrowserConnector.get_or_create_browser] *)
Definition get_or_create_browser (self : BitBrowserConnector)
    (browser_id : string) (headless : bool) (account_file : option string)
  : M (option browser * option nat * BitBrowserConnector) :=
  do opened <- open_browser self browser_id headless None;
  match opened with
  | (None, self) => ret (None, None, self)
  | (Some b, self) =>
      try_except
        (match browser_contexts b with
         | context :: _ =>
             log INFO "使用比特浏览器已有的context";;
             merge_account_file context account_file;;
             ret (Some b, Some context, self)
         | [] =>
             do context <- create_context_from_browser self b account_file None;
             log INFO "创建了新的context";;
             ret (Some b, Some context, self)
         end)
        is_Exception
        (fun e =>
           log ERROR ("获取context失败: " +:+ exn_msg e +:+ "，尝试创建新context");;
           do context <- create_context_from_browser self b account_file None;
           ret (Some b, Some context, self))
  end.

End WithEnv.

(** [str.lower()] on the ASCII letters *)
Definition lower_ascii (c : ascii) : ascii :=
  let n := nat_of_ascii c in
  if Nat.leb 65 n && Nat.leb n 90 then ascii_of_nat (n + 32) else c.

Fixpoint lower (s : string) : string :=
  match s with
  | EmptyString => EmptyString
  | String c r => String (lower_ascii c) (lower r)
  end.

Record BrowserManager : Type := MkManager {
  browser_type : string;
  bitbrowser_url : string;
  local_chrome_path : option string;
  headless : bool;
  connector : option BitBrowserConnector
}.

(** [BrowserManager.__init__] *)
Definition manager_init (browser_type bitbrowser_url : string)
    (local_chrome_path : option string) (headless : bool) : M BrowserManager :=
  let t := lower browser_type in
  if String.eqb t "bitbrowser" then
    do c <- init bitbrowser_url;
    ret (MkManager t bitbrowser_url local_chrome_path headless (Some c))
  else
    ret (MkManager t bitbrowser_url local_chrome_path headless None).

Section ManagerWithEnv.
Variable E : env.

(** [BrowserManager.create_browser] *)
Definition create_browser (self : BrowserManager) (browser_id : option string)
    (account_file : option string) : M (option browser * option nat) :=
  if String.eqb (browser_type self) "bitbrowser" then
    match browser_id with
    | Some id =>
        if str_truthy id then
          match connector self with
          | Some c =>
              do r <- get_or_create_browser E c id (headless self) account_file;
              ret (r.1.1, r.1.2)
          | None =>
              raise (Exn AttributeError
                       "'NoneType' object has no attribute 'get_or_create_browser'")
          end
        else
          log ERROR "比特浏览器模式需要提供browser_id";;
          ret (None, None)
    | None =>
        log ERROR "比特浏览器模式需要提供browser_id";;
        ret (None, None)
    end
  else
    Playwright.start E;;
    do b <- Playwright.chromium_launch E (headless self)
              (if opt_truthy (local_chrome_path self)
               then local_chrome_path self else None);
    do context <- Playwright.new_context E b
                    (match account_file with
                     | Some f => Playwright.SSPath f
                     | None => Playwright.SSNone
                     end);
    do context <- set_init_script context;
    ret (Some b, Some context).

(** [BrowserManager.close_browser]; a [BrowserManager] has no attribute
    [current_browser_id], so evaluating [self.current_browser_id] raises. *)
Definition manager_close_browser (self : BrowserManager)
    (b : option browser) (browser_id : option string) : M unit :=
  if String.eqb (browser_type self) "bitbrowser" then
    match connector self with
    | Some c =>
        do target <-
          (if opt_truthy browser_id then ret browser_id
           else raise (Exn AttributeError
                  "'BrowserManager' object has no attribute 'current_browser_id'"));
        close_browser E c target 5;;
        ret tt
    | None => raise (Exn AttributeError
                       "'NoneType' object has no attribute 'close_browser'")
    end
  else
    match b with
    | Some b => Playwright.close E b
    | None => raise (Exn AttributeError
                       "'NoneType' object has no attribute 'close'")
    end.

End ManagerWithEnv.
End Connector.

(** ** conf.example.py *)
Module Conf.

Record conf : Type := MkConf {
  LOCAL_CHROME_PATH : string;
  LOCAL_CHROME_HEADLESS : bool;
  BIT_BROWSER_URL : string;
  DEFAULT_BROWSER_TYPE : string
}.

Definition example : conf :=
  {| LOCAL_CHROME_PATH := "";
     LOCAL_CHROME_HEADLESS := false;
     BIT_BROWSER_URL := "http://127.0.0.1:54345";
     DEFAULT_BROWSER_TYPE := "playwright" |}.

End Conf.

(** The dict with keys [browser_type] and [bitbrowser_id]. *)
Record browser_config : Type := BrowserConfig {
  cfg_browser_type : string;
  cfg_bitbrowser_id : option string
}.

(** [cursor.execute(SELECT ... WHERE <key> = ?); cursor.fetchone()] *)
Definition fetchone (E : env) (matches : user_row -> bool)
  : res (option user_row) :=
  match database E with
  | DbFails e => Raise e
  | DbTable rows => Ret (find matches rows)
  end.

(** [row["browser_type"] or default] *)
Definition or_default (o : option string) (default : string) : string :=
  match o with
  | Some s => if str_truthy s then s else default
  | None => default
  end.

(** ** utils/browser_helper.py *)
Module Helper.
Import Conf.

Section WithEnv.
Variable C : conf.
Variable E : env.

Definition py_bool_str (b : bool) : string := if b then "True" else "False".

(** [create_browser_and_context] *)
Definition create_browser_and_context (browser_type browser_id
    account_file : option string) (headless : option bool) : M (browser * nat) :=
  let browser_type := match browser_type with
                      | Some t => t
                      | None => DEFAULT_BROWSER_TYPE C
                      end in
  let headless := match headless with
                  | Some h => h
                  | None => LOCAL_CHROME_HEADLESS C
                  end in
  log INFO ("创建浏览器: type=" +:+ browser_type +:+ ", headless="
            +:+ py_bool_str headless);;
  if String.eqb browser_type "bitbrowser" then
    match browser_id with
    | Some id =>
        if str_truthy id then
          do connector <- Connector.init (BIT_BROWSER_URL C);
          do r <- Connector.get_or_create_browser E connector id headless
                    account_file;
          match r with
          | (Some b, Some context, _) => ret (b, context)
          | _ => raise (Exn PlainException "无法创建比特浏览器实例")
          end
        else raise (Exn ValueError "比特浏览器模式需要提供 browser_id 参数")
    | None => raise (Exn ValueError "比特浏览器模式需要提供 browser_id 参数")
    end
  else
    Playwright.start E;;
    do b <- Playwright.chromium_launch E headless
              (if str_truthy (LOCAL_CHROME_PATH C)
               then Some (LOCAL_CHROME_PATH C) else None);
    do context <- Playwright.new_context E b
                    (match account_file with
                     | Some f => if str_truthy f then Playwright.SSPath f
                                 else Playwright.SSNone
                     | None => Playwright.SSNone
                     end);
    do context <- set_init_script context;
    ret (b, context).

(** [close_browser] *)
Definition close_browser (b : option browser) (browser_type browser_id : option string)
    (delay : Z) : M unit :=
  let browser_type := match browser_type with
                      | Some t => t
                      | None => DEFAULT_BROWSER_TYPE C
                      end in
  tell (ESleep delay);;
  if String.eqb browser_type "bitbrowser" then
    if opt_truthy browser_id then
      do connector <- Connector.init (BIT_BROWSER_URL C);
      Connector.close_browser E connector browser_id 5;;
      ret tt
    else ret tt
  else
    match b with
    | Some b => Playwright.close E b
    | None => raise (Exn AttributeError
                       "'NoneType' object has no attribute 'close'")
    end.

(** [get_account_browser_config] *)
Definition get_account_browser_config (account_id : Z) : M browser_config :=
  try_except
    (do result <- lift (fetchone E (fun r => Z.eqb (row_id r) account_id));
     match result with
     | Some row =>
         ret (BrowserConfig
                (or_default (row_browser_type row) (DEFAULT_BROWSER_TYPE C))
                (row_bitbrowser_id row))
     | None => ret (BrowserConfig (DEFAULT_BROWSER_TYPE C) None)
     end)
    is_Exception
    (fun e =>
       log ERROR ("获取账号浏览器配置失败: " +:+ exn_msg e);;
       ret (BrowserConfig (DEFAULT_BROWSER_TYPE C) None)).

(** [create_browser_for_account] *)
Definition create_browser_for_account (account_id : Z)
    (account_file : option string) (headless : option bool)
  : M (browser * nat * browser_config) :=
  do config <- get_account_browser_config account_id;
  do r <- create_browser_and_context (Some (cfg_browser_type config))
            (cfg_bitbrowser_id config) account_file headless;
  ret (r.1, r.2, config).

Record BrowserContextManager : Type := MkScope {
  scope_browser_type : option string;
  scope_browser_id : option string;
  scope_account_file : option string;
  scope_headless : option bool;
  scope_browser : option browser;
  scope_context : option nat
}.

(** [BrowserContextManager.__aenter__] *)
Definition aenter (self : BrowserContextManager)
  : M (browser * nat * BrowserContextManager) :=
  do r <- create_browser_and_context (scope_browser_type self)
            (scope_browser_id self) (scope_account_file self)
            (scope_headless self);
  ret (r.1, r.2,
       MkScope (scope_browser_type self) (scope_browser_id self)
         (scope_account_file self) (scope_headless self)
         (Some r.1) (Some r.2)).

(** [BrowserContextManager.__aexit__] *)
Definition aexit (self : BrowserContextManager) : M unit :=
  match scope_browser self with
  | Some b => close_browser (Some b) (scope_browser_type self)
                (scope_browser_id self) 2
  | None => ret tt
  end.

End WithEnv.
End Helper.

(** ** myUtils/postVideo.py *)
Module PostVideo.

(** [get_account_browser_config_by_filepath] *)
Definition get_account_browser_config_by_filepath (E : env)
    (file_path : string) : M browser_config :=
  try_except
    (do result <- lift (fetchone E (fun r => String.eqb (row_filePath r) file_path));
     match result with
     | Some row =>
         ret (BrowserConfig (or_default (row_browser_type row) "playwright")
                (row_bitbrowser_id row))
     | None => ret (BrowserConfig "playwright" None)
     end)
    is_Exception
    (fun e =>
       tell (EPrint ("获取账号浏览器配置失败: " +:+ exn_msg e));;
       ret (BrowserConfig "playwright" None)).

End PostVideo.

(** ** The publish-time scheduler *)
Module Scheduler.

Record ScheduleRequest : Type := MkRequest {
  itemCount : nat;
  itemsPerDay : nat;
  timesOfDay : option (list (nat * nat));   (* (hour, minute) pairs *)
  startDayOffset : nat
}.

(** The default daytime window, in minutes after midnight. *)
Record window : Type := MkWindow { day_start : nat; day_end : nat }.

Definition minute_of (t : nat * nat) : nat := t.1 * 60 + t.2.

(** Minute of the day given to the [k]-th item of a day: the supplied
    times in order, cycling; without supplied times, even spacing over
    the window. *)
Definition slot (win : window) (r : ScheduleRequest) (k : nat) : nat :=
  match timesOfDay r with
  | Some ts => minute_of (nth (k mod length ts) ts (0, 0)%nat)
  | None => day_start win + k * (day_end win - day_start win) / itemsPerDay r
  end.

(** Timestamps are minutes since the epoch; [now / 1440] is the day that
    contains "now", and the first day given out is the next one (the
    callers import the function as [generate_schedule_time_next_day], and
    the spec wants every timestamp after now), moved on by
    [startDayOffset] days. *)
Definition timestamp (win : window) (now : Z) (r : ScheduleRequest) (i : nat) : Z :=
  ((now / 1440 + 1 + Z.of_nat (startDayOffset r) + Z.of_nat (i / itemsPerDay r))
   * 1440
   + Z.of_nat (slot win r (i mod itemsPerDay r)))%Z.

(** Modelled from the spec: [utils.files_times.generate_schedule_time_next_day]
    is not among the sources (only its callers in myUtils/postVideo.py
    are).  Items are distributed across consecutive days starting
    [startDayOffset] days from now (counted from the next day),
    [itemsPerDay] items per day; within a day the supplied times of day
    are assigned in order, cycling, or an even spacing over a default
    daytime window is used. *)
Definition schedule (win : window) (now : Z) (r : ScheduleRequest) : list Z :=
  map (timestamp win now r) (seq 0 (itemCount r)).

Definition non_decreasing (l : list Z) : Prop :=
  forall (i j : nat) (x y : Z),
    (i <= j)%nat -> l !! i = Some x -> l !! j = Some y -> (x <= y)%Z.

Definition valid_time (t : nat * nat) : Prop := (t.1 < 24)%nat /\ (t.2 < 60)%nat.

(** The times of day in force are ascending and a day never needs more
    of them than there are. *)
Definition slots_ascending (win : window) (r : ScheduleRequest) : Prop :=
  match timesOfDay r with
  | Some ts =>
      (itemsPerDay r <= length ts)%nat /\
      Forall valid_time ts /\
      (forall (a b : nat) (s t : nat * nat),
          (a <= b)%nat -> ts !! a = Some s -> ts !! b = Some t ->
          (minute_of s <= minute_of t)%nat)
  | None => (day_start win <= day_end win)%nat /\ (day_end win < 1440)%nat
  end.

End Scheduler.

(** ** The operations of the service client, as one type *)

Inductive operation : Type :=
| OpHealthCheck
| OpCreate (browser_config : list (string * json))
| OpOpen (browser_id : string) (args : option (list string)) (queue : bool)
    (new_page_url : option string)
| OpClose (browser_id : string)
| OpDelete (browser_id : string)
| OpDetail (browser_id : string)
| OpList (page page_size : Z) (group_id name : option string)
| OpPids (browser_ids : list string)
| OpIsOpened (browser_id : string)
| OpUpdateProxy (browser_ids : list string) (proxy_type host : string) (port : Z)
    (proxy_username proxy_password : option string) (proxy_method : Z)
| OpResetStatus (browser_id : string)
| OpGetCookies (browser_id : string)
| OpSetCookies (browser_id : string) (cookies : list json)
| OpClearCookies (browser_id : string) (save_synced : bool)
| OpCreateForPlatform (name platform_url : string) (remark : option string)
    (proxy_config : option (list (string * json))).

Definition run_op (E : env) (self : BitBrowserAPI) (op : operation) : M json :=
  match op with
  | OpHealthCheck => Api.health_check E self
  | OpCreate c => Api.create_browser E self c
  | OpOpen i a q u => Api.open_browser E self i a q u
  | OpClose i => Api.close_browser E self i
  | OpDelete i => Api.delete_browser E self i
  | OpDetail i => Api.get_browser_detail E self i
  | OpList p s g n => Api.list_browsers E self p s g n
  | OpPids l => Api.get_browser_pids E self l
  | OpIsOpened i => Api.is_browser_opened E self i
  | OpUpdateProxy l t h p u pw m => Api.update_browser_proxy E self l t h p u pw m
  | OpResetStatus i => Api.reset_browser_status E self i
  | OpGetCookies i => Api.get_cookies E self i
  | OpSetCookies i c => Api.set_cookies E self i c
  | OpClearCookies i b => Api.clear_cookies E self i b
  | OpCreateForPlatform n u r p => Api.create_browser_for_platform E self n u r p
  end.


Definition payload_of (data : option json) : json :=
  match data with
  | Some d => if truthy d then d else JObj []
  | None => JObj []
  end.

Definition failure_dict (msg : string) : json :=
  JObj [("success", JBool false); ("msg", JStr msg)].

(** The outcome is one that the HTTP layer reports as a request
    exception: timeout, refused connection, 4xx/5xx status, or a body
    that is not JSON. *)
Definition request_fails (o : http_outcome) : bool :=
  match o with
  | Timeout _ | ConnectionRefused _ => true
  | Response status _ b =>
      (Z.leb 400 status && Z.ltb status 600) ||
      match b with NotJson => true | Json _ => false end
  end.


(** What each operation hands back when its request failed with message
    [msg]: [False], [None], the empty dict, or (for window creation) the
    response object with [success = False]. *)
Definition failure_repr (op : operation) (msg : string) : json :=
  match op with
  | OpHealthCheck | OpClose _ | OpDelete _ | OpIsOpened _
  | OpUpdateProxy _ _ _ _ _ _ _ | OpResetStatus _
  | OpSetCookies _ _ | OpClearCookies _ _ => JBool false
  | OpOpen _ _ _ _ | OpDetail _ | OpList _ _ _ _ | OpGetCookies _
  | OpCreateForPlatform _ _ _ _ => JNull
  | OpPids _ => JObj []
  | OpCreate _ => failure_dict msg
  end.

(** A payload has the shape of the control-plane protocol when it is an
    object whose [success] field is a boolean. *)
Definition well_formed_payload (j : json) : bool :=
  match j with
  | JObj d => match dict_get "success" d with
              | Some (JBool _) => true
              | _ => false
              end
  | _ => false
  end.

(** Network-level failure as the spec lists it: timeout, connection
    refused, non-2xx status, malformed response payload. *)
Definition network_failure (o : http_outcome) : bool :=
  match o with
  | Timeout _ | ConnectionRefused _ => true
  | Response status _ b =>
      negb (Z.leb 200 status && Z.ltb status 300) ||
      match b with NotJson => true | Json j => negb (well_formed_payload j) end
  end.

(** Run [f] on each element in turn. *)
Fixpoint for_each {A B : Type} (f : A -> M B) (l : list A) : M (list B) :=
  match l with
  | [] => ret []
  | x :: rest =>
      do y <- f x;
      do ys <- for_each f rest;
      ret (y :: ys)
  end.

(** The single-row lookup finds no record, or fails with an error. *)
Definition lookup_fails (E : env) (matches : user_row -> bool) : Prop :=
  match database E with
  | DbFails e => is_Exception (exn_cls e) = true
  | DbTable rows => find matches rows = None
  end.

Definition is_log (e : event) : Prop :=
  match e with ELog _ _ => True | _ => False end.

(** The last cookie of [cs] with name, domain and path [k], if any. *)
Fixpoint last_with_key (k : string * string * string) (cs : list cookie)
  : option cookie :=
  match cs with
  | [] => None
  | c :: rest =>
      match last_with_key k rest with
      | Some c' => Some c'
      | None => if decide (cookie_key c = k) then Some c else None
      end
  end.

(** ** Concrete environments and worlds *)
Module Examples.

Definition w0 : world := World [] [] None 0.

(** An environment that answers every request with [o], never attaches
    and has no files and no account table. *)
Definition env_answering (o : http_outcome) : env :=
  {| http := fun _ _ _ _ => o;
     playwright_start := fun _ => None;
     connect_over_cdp := fun _ _ => Raise (Exn PlaywrightError "connect failed");
     launch := fun _ _ _ => Raise (Exn PlaywrightError "launch failed");
     browser_close := fun _ _ => None;
     read_file := fun _ => Absent;
     database := DbFails (Exn SqliteError "unable to open database file") |}.

Definition api0 : BitBrowserAPI := MkApi 0 "http://127.0.0.1:54345".

Definition connector0 : Connector.BitBrowserConnector :=
  Connector.MkConnector api0 "http://127.0.0.1:54345" None.

(** A healthy service whose window open hands out a debugging endpoint;
    [attach] is what [connect_over_cdp] does and [files] the file system. *)
Definition env_remote (attach : res browser) (files : string -> file_state) : env :=
  {| http := fun _ _ endpoint _ =>
       if String.eqb endpoint "/browser/open"
       then Response 200 "OK"
              (Json (JObj [("success", JBool true);
                           ("data", JObj [("ws", JStr "ws://127.0.0.1:9222/devtools/browser/1")])]))
       else Response 200 "OK" (Json (JObj [("success", JBool true)]));
     playwright_start := fun _ => None;
     connect_over_cdp := fun _ _ => attach;
     launch := fun _ _ _ => Ret (Browser 2 []);
     browser_close := fun _ _ => None;
     read_file := files;
     database := DbTable [] |}.

(** A healthy service whose window open answers with [open_data]. *)
Definition env_opening (open_data : json) (attach : res browser)
    (files : string -> file_state) : env :=
  {| http := fun _ _ endpoint _ =>
       if String.eqb endpoint "/browser/open"
       then Response 200 "OK"
              (Json (JObj [("success", JBool true); ("data", open_data)]))
       else Response 200 "OK" (Json (JObj [("success", JBool true)]));
     playwright_start := fun _ => None;
     connect_over_cdp := fun _ _ => attach;
     launch := fun _ _ _ => Ret (Browser 2 []);
     browser_close := fun _ _ => None;
     read_file := files;
     database := DbTable [] |}.

Definition cookie_a : cookie := Cookie "sid" ".douyin.com" "/" "A".
Definition cookie_b : cookie := Cookie "token" ".douyin.com" "/" "B".

(** A storage-state file holding cookie B. *)
Definition state_file_b : file_state :=
  Document (JObj [("cookies",
                   JArr [JObj [("name", JStr "token"); ("value", JStr "B");
                               ("domain", JStr ".douyin.com"); ("path", JStr "/")]]);
                  ("origins", JArr [])]).

(** A storage-state file holding a cookie with the name, domain and path
    of cookie A and another value. *)
Definition state_file_stale_a : file_state :=
  Document (JObj [("cookies",
                   JArr [JObj [("name", JStr "sid"); ("value", JStr "STALE");
                               ("domain", JStr ".douyin.com"); ("path", JStr "/")]])]).

(** A world whose heap holds one context, with cookie A and no init script. *)
Definition w_with_a : world :=
  World [] [Context {[cookie_key cookie_a := cookie_a]} 0] None 0.

End Examples.

(** ** The thin wrappers of the connector *)
Module ConnectorQueries.
Import Connector.

Section WithEnv.
Variable E : env.

(** [BitBrowserConnector.get_browser_info] *)
Definition get_browser_info (self : BitBrowserConnector) (browser_id : string)
  : M json :=
  Api.get_browser_detail E (api self) browser_id.

(** [BitBrowserConnector.list_browsers] *)
Definition list_browsers (self : BitBrowserConnector) (name : option string)
  : M json :=
  Api.list_browsers E (api self) 0 100 None name.

(** [BitBrowserConnector.is_browser_opened] *)
Definition is_browser_opened (self : BitBrowserConnector) (browser_id : string)
  : M json :=
  Api.is_browser_opened E (api self) browser_id.

(** [BitBrowserConnector.create_new_browser_window] *)
Definition create_new_browser_window (self : BitBrowserConnector)
    (name platform_url : string) (remark : option string)
    (proxy_config : option (list (string * json))) : M json :=
  do browser_id <- Api.create_browser_for_platform E (api self) name
                     platform_url remark proxy_config;
  (if truthy browser_id
   then log INFO ("成功创建浏览器窗口: "
                  +:+ match browser_id with JStr s => s | _ => "" end)
   else log ERROR "创建浏览器窗口失败");;
  ret browser_id.

End WithEnv.
End ConnectorQueries.

(** ** db/migrate_add_bitbrowser.py *)
Module Migration.

(** What is at [./database.db]: nothing, a file that is no database, or a
    database with or without a [user_info] table (its column names). *)
Inductive db_file : Type :=
| NoFile
| NotADatabase
| Database (user_info : option (list string)).

(** SQLite compares column names without regard to ASCII case. *)
Definition same_column (a b : string) : bool :=
  String.eqb (Connector.lower a) (Connector.lower b).

(** [ALTER TABLE user_info ADD COLUMN name ...] *)
Definition add_column (name : string) (table : option (list string))
  : res (list string) :=
  match table with
  | None => Raise (Exn SqliteError "no such table: user_info")
  | Some cols =>
      if existsb (same_column name) cols
      then Raise (Exn SqliteError ("duplicate column name: " +:+ name))
      else Ret (cols ++ [name])%list
  end.

(** ['name' not in columns] on the names read by [PRAGMA table_info] *)
Definition listed (name : string) (cols : list string) : bool :=
  existsb (String.eqb name) cols.

Definition table_columns (table : option (list string)) : list string :=
  match table with Some cols => cols | None => [] end.

(** One of the two "add the column unless it is listed" steps. *)
Definition ensure_column (name added skipped : string) (columns : list string)
    (table : option (list string)) (out : list string)
  : res (option (list string) * list string) :=
  if listed name columns then Ret (table, (out ++ [skipped])%list)
  else match add_column name table with
       | Ret cols => Ret (Some cols, (out ++ [added])%list)
       | Raise e => Raise e
       end.

(** [migrate]: the file afterwards and the lines printed. *)
Definition migrate (f : db_file) : db_file * list string :=
  match f with
  | NoFile => (NoFile, ["数据库文件不存在，无需迁移"])
  | NotADatabase =>
      (NotADatabase, ["❌ 迁移失败: file is not a database"])
  | Database table =>
      let columns := table_columns table in
      match ensure_column "browser_type" "✅ 成功添加 browser_type 字段"
              "ℹ️  browser_type 字段已存在，跳过" columns table [] with
      | Raise e => (Database table, ["❌ 迁移失败: " +:+ exn_msg e])
      | Ret (table1, out1) =>
          match ensure_column "bitbrowser_id" "✅ 成功添加 bitbrowser_id 字段"
                  "ℹ️  bitbrowser_id 字段已存在，跳过" columns table1 out1 with
          | Raise e => (Database table1, (out1 ++ ["❌ 迁移失败: " +:+ exn_msg e])%list)
          | Ret (table2, out2) =>
              (Database table2, (out2 ++ ["✅ 数据库迁移完成"])%list)
          end
      end
  end.

(** A table none of whose columns differs from [name] by letter case
    only. *)
Definition exact_case (name : string) (cols : list string) : Prop :=
  forall c, In c cols -> same_column name c = true -> c = name.

End Migration.

(** ** Reading a trace *)

(** The endpoints of the requests in a trace, in order. *)
Fixpoint endpoints (t : list event) : list string :=
  match t with
  | [] => []
  | EPost _ endpoint _ :: t' => endpoint :: endpoints t'
  | _ :: t' => endpoints t'
  end.

(** The endpoint an operation of the service client posts to. *)
Definition endpoint_of (op : operation) : string :=
  match op with
  | OpHealthCheck => "/health"
  | OpCreate _ | OpCreateForPlatform _ _ _ _ => "/browser/update"
  | OpOpen _ _ _ _ => "/browser/open"
  | OpClose _ => "/browser/close"
  | OpDelete _ => "/browser/delete"
  | OpDetail _ => "/browser/detail"
  | OpList _ _ _ _ => "/browser/list"
  | OpPids _ | OpIsOpened _ => "/browser/pids"
  | OpUpdateProxy _ _ _ _ _ _ _ => "/browser/proxy/update"
  | OpResetStatus _ => "/browser/closing/reset"
  | OpGetCookies _ => "/browser/cookies/get"
  | OpSetCookies _ _ => "/browser/cookies/set"
  | OpClearCookies _ _ => "/browser/cookies/clear"
  end.

(** The string ends with a slash. *)
Fixpoint ends_with_slash (s : string) : bool :=
  match s with
  | EmptyString => false
  | String c EmptyString => Ascii.eqb c "/"%char
  | String _ r => ends_with_slash r
  end.

(** [n] slashes *)
Fixpoint slashes (n : nat) : string :=
  match n with
  | O => EmptyString
  | S n' => String "/"%char (slashes n')
  end.

(** * Facts about the service client *)

Lemma post_result_fails (o : http_outcome) :
  request_fails o = true ->
  Api.post_result o = Raise (Exn RequestException (Api.request_error_msg o)).
Proof.
  destruct o as [m|m|status reason b]; simpl; try reflexivity.
  destruct (Z.leb 400 status && Z.ltb status 600); simpl; [reflexivity|].
  destruct b; [reflexivity|discriminate].
Qed.

Lemma post_result_class (o : http_outcome) (e : exn) :
  Api.post_result o = Raise e -> exn_cls e = RequestException.
Proof.
  destruct o as [m|m|status reason b]; simpl.
  - intros [= <-]. reflexivity.
  - intros [= <-]. reflexivity.
  - destruct (Z.leb 400 status && Z.ltb status 600).
    + intros [= <-]. reflexivity.
    + destruct b; [intros [= <-]; reflexivity | discriminate].
Qed.

(** [_request] never raises: it returns the decoded body, or logs and
    returns the failure dict. *)
Lemma request_eq (E : env) (self : BitBrowserAPI) (endpoint : string)
    (data : option json) (w : world) :
  Api._request E self endpoint data w =
  let payload := payload_of data in
  let w1 := emit (EPost (base_url self) endpoint payload) w in
  match Api.post_result (http E (trace w) (base_url self) endpoint payload) with
  | Ret j => (Ret j, w1)
  | Raise e => (Ret (failure_dict (exn_msg e)),
                emit (ELog ERROR ("请求失败: " +:+ exn_msg e)) w1)
  end.
Proof.
  unfold Api._request, try_except, bind, history, tell, lift, payload_of. simpl.
  destruct (Api.post_result _) as [j|e] eqn:Hp; [reflexivity|].
  rewrite (post_result_class _ _ Hp). reflexivity.
Qed.

Lemma request_failed_eq (E : env) (self : BitBrowserAPI) (endpoint : string)
    (data : option json) (w : world) (o : http_outcome) :
  http E (trace w) (base_url self) endpoint (payload_of data) = o ->
  request_fails o = true ->
  Api._request E self endpoint data w =
  (Ret (failure_dict (Api.request_error_msg o)),
   emit (ELog ERROR ("请求失败: " +:+ Api.request_error_msg o))
     (emit (EPost (base_url self) endpoint (payload_of data)) w)).
Proof.
  intros Ho Hf. rewrite request_eq. simpl. rewrite Ho.
  rewrite (post_result_fails _ Hf). reflexivity.
Qed.

Ltac run_monad :=
  repeat (progress (unfold bind, lift, ret, raise, tell, log, history,
                    Api.data_if_success; simpl)).

(** C4, as the code has it: every operation of the service client
    absorbs a request that fails with a timeout, a refused connection, a
    4xx/5xx status or a body that is not JSON, and returns its failure
    representation without raising. *)
Theorem api_request_failure_absorbed (E : env) (self : BitBrowserAPI)
    (op : operation) (w : world) (o : http_outcome) :
  (forall endpoint data, http E (trace w) (base_url self) endpoint data = o) ->
  request_fails o = true ->
  exists w', run_op E self op w
             = (Ret (failure_repr op (Api.request_error_msg o)), w').
Proof.
  intros Ho Hf.
  destruct op; simpl;
    unfold Api.health_check, Api.create_browser, Api.open_browser,
      Api.close_browser, Api.delete_browser, Api.get_browser_detail,
      Api.list_browsers, Api.is_browser_opened, Api.get_browser_pids,
      Api.update_browser_proxy, Api.reset_browser_status, Api.get_cookies,
      Api.set_cookies, Api.clear_cookies, Api.create_browser_for_platform,
      Api.create_browser;
    unfold bind;
    rewrite (request_failed_eq E self _ _ w o) by (first [apply Ho | exact Hf]);
    run_monad; eexists; reflexivity.
Qed.

Lemma api_request_failure_absorbed_witness :
  request_fails (Timeout "timed out") = true /\
  exists w', run_op (Examples.env_answering (Timeout "timed out")) Examples.api0
               (OpList 0 100 None None) Examples.w0
             = (Ret JNull, w').
Proof.
  split; [reflexivity|].
  apply (api_request_failure_absorbed
           (Examples.env_answering (Timeout "timed out")) Examples.api0
           (OpList 0 100 None None) Examples.w0 (Timeout "timed out"));
    [intros; reflexivity | reflexivity].
Defined.

(** C4 as stated fails: a 200 answer whose body is JSON but not an
    object (here the empty array) is a malformed payload, and the health
    check raises AttributeError instead of returning False; and a status
    outside 2xx that is not 4xx/5xx (here 304) is not turned into a
    failure at all. *)
Lemma api_malformed_payload_raises :
  (network_failure (Response 200 "OK" (Json (JArr []))) = true /\
   (run_op (Examples.env_answering (Response 200 "OK" (Json (JArr []))))
      Examples.api0 OpHealthCheck Examples.w0).1
   = Raise (Exn AttributeError "object has no attribute 'get'")) /\
  (network_failure
     (Response 304 "Not Modified" (Json (JObj [("success", JBool true)]))) = true /\
   (run_op (Examples.env_answering
              (Response 304 "Not Modified" (Json (JObj [("success", JBool true)]))))
      Examples.api0 OpHealthCheck Examples.w0).1
   = Ret (JBool true)).
Proof. repeat split; reflexivity. Qed.

(** C10: the one request [list_browsers] sends carries
    [pageSize = min(page_size, 100)], which never exceeds 100. *)
Theorem list_browsers_page_size_clamped (E : env) (self : BitBrowserAPI)
    (page page_size : Z) (group_id name : option string) (w : world) :
  exists fields logs,
    trace (Api.list_browsers E self page page_size group_id name w).2
    = (trace w ++ EPost (base_url self) "/browser/list" (JObj fields) :: logs)%list
    /\ Forall is_log logs
    /\ dict_get "pageSize" fields = Some (JNum (Z.min page_size 100))
    /\ (Z.min page_size 100 <= 100)%Z.
Proof.
  unfold Api.list_browsers.
  set (d0 := [("page", JNum page); ("pageSize", JNum (Z.min page_size 100))]).
  set (d1 := if opt_truthy group_id then _ else _).
  set (d2 := if opt_truthy name then _ else _).
  assert (Hd : dict_get "pageSize" d2 = Some (JNum (Z.min page_size 100))).
  { subst d2 d1 d0. destruct (opt_truthy group_id), (opt_truthy name); reflexivity. }
  assert (Hp : payload_of (Some (JObj d2)) = JObj d2).
  { subst d2 d1 d0. destruct (opt_truthy group_id), (opt_truthy name); reflexivity. }
  exists d2.
  unfold bind at 1. rewrite request_eq. rewrite Hp. simpl.
  destruct (Api.post_result _) as [j|e].
  - exists []. run_monad.
    split; [|split; [constructor | split; [exact Hd | lia]]].
    destruct (py_get j "success" JNull) as [ok|?]; simpl;
      [destruct (truthy ok); simpl;
       [destruct (py_get j "data" (JObj [])) as [d|?]; simpl;
        [destruct (py_get d "list" (JArr [])); simpl|]|]|];
      reflexivity.
  - exists [ELog ERROR ("请求失败: " +:+ exn_msg e)]. run_monad.
    split; [|split; [repeat constructor | split; [exact Hd | lia]]].
    rewrite <- ?app_assoc. reflexivity.
Qed.

(** * The singleton client *)

Lemma get_bitbrowser_api_reuses (a0 : BitBrowserAPI) (url : string) (w : world) :
  _default_api w = Some a0 -> Api.get_bitbrowser_api url w = (Ret a0, w).
Proof. intros H. unfold Api.get_bitbrowser_api. rewrite H. reflexivity. Qed.

Lemma connector_init_reuses (a0 : BitBrowserAPI) (url : string) (w : world) :
  _default_api w = Some a0 ->
  Connector.init url w = (Ret (Connector.MkConnector a0 url None), w).
Proof.
  intros H. unfold Connector.init, bind.
  rewrite (get_bitbrowser_api_reuses a0 url w H). reflexivity.
Qed.

Lemma for_each_get_reuses (a0 : BitBrowserAPI) (urls : list string) (w : world) :
  _default_api w = Some a0 ->
  for_each Api.get_bitbrowser_api urls w = (Ret (replicate (length urls) a0), w).
Proof.
  intros H. induction urls as [|u urls IH]; simpl; [reflexivity|].
  unfold bind. rewrite (get_bitbrowser_api_reuses a0 u w H).
  unfold bind in IH. rewrite IH. reflexivity.
Qed.

Lemma for_each_init_reuses (a0 : BitBrowserAPI) (urls : list string) (w : world) :
  _default_api w = Some a0 ->
  for_each Connector.init urls w
  = (Ret (map (fun u => Connector.MkConnector a0 u None) urls), w).
Proof.
  intros H. induction urls as [|u urls IH]; simpl; [reflexivity|].
  unfold bind at 1. rewrite (connector_init_reuses a0 u w H).
  unfold bind at 1. rewrite IH. reflexivity.
Qed.

(** C9: the first call of [get_bitbrowser_api] creates the client; every
    later call returns that same instance whatever address it is given
    and leaves the world untouched, every connector constructed later
    holds that instance, and the requests of such a connector go to the
    base address of the first client. *)
Theorem default_api_is_first_client (first_url : string) (later : list string)
    (w : world) :
  _default_api w = None ->
  exists (a0 : BitBrowserAPI) (w0 : world),
    Api.get_bitbrowser_api first_url w = (Ret a0, w0) /\
    base_url a0 = Api.rstrip_slash first_url /\
    for_each Api.get_bitbrowser_api later w0
    = (Ret (replicate (length later) a0), w0) /\
    for_each Connector.init later w0
    = (Ret (map (fun u => Connector.MkConnector a0 u None) later), w0) /\
    (forall (w1 : world) (url : string),
        _default_api w1 = Some a0 ->
        Api.get_bitbrowser_api url w1 = (Ret a0, w1) /\
        exists c, Connector.init url w1 = (Ret c, w1) /\
                  Connector.api c = a0 /\
                  forall (E : env) (endpoint : string) (data : option json)
                         (w2 : world),
                  exists logs,
                    trace (Api._request E (Connector.api c) endpoint data w2).2
                    = (trace w2
                       ++ EPost (Api.rstrip_slash first_url) endpoint
                            (payload_of data) :: logs)%list).
Proof.
  intros Hnone.
  set (a0 := MkApi (next_oid w) (Api.rstrip_slash first_url)).
  exists a0.
  eexists. split.
  { unfold Api.get_bitbrowser_api. rewrite Hnone. unfold Api.init. simpl.
    reflexivity. }
  split; [reflexivity|].
  split; [apply for_each_get_reuses; reflexivity|].
  split; [apply for_each_init_reuses; reflexivity|].
  intros w1 url H1. split; [apply get_bitbrowser_api_reuses; exact H1|].
  exists (Connector.MkConnector a0 url None).
  split; [apply connector_init_reuses; exact H1|].
  split; [reflexivity|].
  intros E endpoint data w2. rewrite request_eq. simpl.
  destruct (Api.post_result _) as [j|e]; simpl.
  - exists []. reflexivity.
  - exists [ELog ERROR ("请求失败: " +:+ exn_msg e)].
    rewrite <- app_assoc. reflexivity.
Qed.

Lemma default_api_is_first_client_witness :
  _default_api Examples.w0 = None /\
  exists (a0 : BitBrowserAPI) (w0 : world),
    Api.get_bitbrowser_api "http://127.0.0.1:2000/" Examples.w0 = (Ret a0, w0) /\
    base_url a0 = "http://127.0.0.1:2000" /\
    for_each Connector.init ["http://127.0.0.1:54345"] w0
    = (Ret [Connector.MkConnector a0 "http://127.0.0.1:54345" None], w0).
Proof.
  split; [reflexivity|].
  destruct (default_api_is_first_client "http://127.0.0.1:2000/"
              ["http://127.0.0.1:54345"] Examples.w0 eq_refl)
    as (a0 & w0 & H1 & H2 & _ & H4 & _).
  exists a0, w0. split; [exact H1|]. split; [exact H2|exact H4].
Defined.

(** * Session creation and teardown *)

(** C2: with the remote backend selected and no window id, both entry
    points fail before anything is contacted: [BrowserManager.create_browser]
    logs the reason and returns [(None, None)], [create_browser_and_context]
    raises a ValueError that carries the reason.  The only events added
    to the trace are log lines: no request, no engine start, no attach. *)
Theorem create_browser_without_window_id (E : env) (C : Conf.conf)
    (mgr : Connector.BrowserManager)
    (browser_type browser_id account_file : option string)
    (headless : option bool) (w : world) :
  Connector.browser_type mgr = "bitbrowser" ->
  match browser_type with Some t => t | None => Conf.DEFAULT_BROWSER_TYPE C end
  = "bitbrowser" ->
  opt_truthy browser_id = false ->
  Connector.create_browser E mgr browser_id account_file w
  = (Ret (None, None), emit (ELog ERROR "比特浏览器模式需要提供browser_id") w) /\
  exists msg,
    Helper.create_browser_and_context C E browser_type browser_id account_file
      headless w
    = (Raise (Exn ValueError "比特浏览器模式需要提供 browser_id 参数"),
       emit (ELog INFO msg) w).
Proof.
  intros Hm Ht Hid. split.
  - unfold Connector.create_browser. rewrite Hm. simpl.
    destruct browser_id as [id|]; [|reflexivity].
    simpl in Hid. rewrite Hid. reflexivity.
  - unfold Helper.create_browser_and_context. rewrite Ht. simpl.
    eexists. unfold bind, log, tell. simpl.
    destruct browser_id as [id|]; [|reflexivity].
    simpl in Hid. rewrite Hid. reflexivity.
Qed.

Lemma create_browser_without_window_id_witness :
  opt_truthy None = false /\
  Connector.create_browser (Examples.env_answering (Timeout "timed out"))
    (Connector.MkManager "bitbrowser" "http://127.0.0.1:2000" None false None)
    None None Examples.w0
  = (Ret (None, None),
     emit (ELog ERROR "比特浏览器模式需要提供browser_id") Examples.w0).
Proof.
  split; [reflexivity|].
  apply (create_browser_without_window_id
           (Examples.env_answering (Timeout "timed out")) Conf.example
           (Connector.MkManager "bitbrowser" "http://127.0.0.1:2000" None false None)
           (Some "bitbrowser") None None None Examples.w0);
    reflexivity.
Defined.

(** The connector's own close tolerates a missing id: it logs a warning
    and returns False. *)
Lemma connector_close_without_id (E : env) (c : Connector.BitBrowserConnector)
    (delay : Z) (w : world) :
  Connector.current_browser_id c = None ->
  Connector.close_browser E c None delay w
  = (Ret (JBool false, c), emit (ELog WARNING "没有指定要关闭的浏览器ID") w).
Proof.
  intros H. unfold Connector.close_browser. simpl. rewrite H. reflexivity.
Qed.

(** Closing a remote window by id never raises when the service answers
    with an object or the request fails: the failure flag comes back. *)
Lemma connector_close_absorbs_failure (E : env) (c : Connector.BitBrowserConnector)
    (id : string) (delay : Z) (w : world) (o : http_outcome) :
  str_truthy id = true ->
  (forall h data, http E h (base_url (Connector.api c)) "/browser/close" data = o) ->
  request_fails o = true ->
  exists w', Connector.close_browser E c (Some id) delay w
             = (Ret (JBool false, c), w').
Proof.
  intros Hid Ho Hf. unfold Connector.close_browser, opt_truthy. rewrite !Hid.
  unfold Api.close_browser, bind, tell. cbv beta iota.
  rewrite (request_failed_eq E _ _ _ _ o) by (first [apply Ho | exact Hf]).
  run_monad. eexists. reflexivity.
Qed.

(** C3 at its failing input: a remote-backend manager whose session was
    never established (no window id) raises AttributeError on close,
    because [BrowserManager] has no attribute [current_browser_id]. *)
Theorem manager_close_without_id_raises (E : env) (b : option browser) :
  exists (mgr : Connector.BrowserManager) (w1 w2 : world),
    Connector.manager_init "bitbrowser" "http://127.0.0.1:2000" None false
      Examples.w0 = (Ret mgr, w1) /\
    Connector.create_browser E mgr None None w1 = (Ret (None, None), w2) /\
    Connector.manager_close_browser E mgr b None w2
    = (Raise (Exn AttributeError
                "'BrowserManager' object has no attribute 'current_browser_id'"),
       w2).
Proof. do 3 eexists. repeat split; reflexivity. Qed.

(** On the local backend a session without an engine handle cannot be
    closed either: [None.close()] raises. *)
Lemma manager_close_without_handle_raises (E : env)
    (mgr : Connector.BrowserManager) (browser_id : option string) (w : world) :
  Connector.browser_type mgr <> "bitbrowser" ->
  Connector.manager_close_browser E mgr None browser_id w
  = (Raise (Exn AttributeError "'NoneType' object has no attribute 'close'"), w).
Proof.
  intros H. unfold Connector.manager_close_browser.
  destruct (String.eqb_spec (Connector.browser_type mgr) "bitbrowser");
    [contradiction|reflexivity].
Qed.

(** * Configuration resolution *)

Lemma helper_config_default (C : Conf.conf) (E : env) (account_id : Z) (w : world) :
  lookup_fails E (fun r => Z.eqb (row_id r) account_id) ->
  exists w', Helper.get_account_browser_config C E account_id w
             = (Ret (BrowserConfig (Conf.DEFAULT_BROWSER_TYPE C) None), w').
Proof.
  unfold lookup_fails, Helper.get_account_browser_config, fetchone,
    try_except, bind, lift.
  destruct (database E) as [e|rows]; simpl.
  - intros ->. eexists. reflexivity.
  - intros ->. eexists. reflexivity.
Qed.

(** C6: when no account record exists or the lookup fails with an error,
    both resolvers return [{browser_type: "playwright", bitbrowser_id:
    None}] and raise nothing ([DEFAULT_BROWSER_TYPE] is "playwright" in
    conf.example.py). *)
Theorem config_resolution_defaults (E : env) (account_id : Z)
    (file_path : string) (w : world) :
  lookup_fails E (fun r => Z.eqb (row_id r) account_id) ->
  lookup_fails E (fun r => String.eqb (row_filePath r) file_path) ->
  (exists w', Helper.get_account_browser_config Conf.example E account_id w
              = (Ret (BrowserConfig "playwright" None), w')) /\
  (exists w', PostVideo.get_account_browser_config_by_filepath E file_path w
              = (Ret (BrowserConfig "playwright" None), w')).
Proof.
  intros Hid Hpath. split.
  - apply (helper_config_default Conf.example E account_id w Hid).
  - revert Hpath.
    unfold lookup_fails, PostVideo.get_account_browser_config_by_filepath,
      fetchone, try_except, bind, lift.
    destruct (database E) as [e|rows]; simpl.
    + intros ->. eexists. reflexivity.
    + intros ->. eexists. reflexivity.
Qed.

Lemma config_resolution_defaults_witness :
  lookup_fails (Examples.env_answering (Timeout "timed out"))
    (fun r => Z.eqb (row_id r) 7) /\
  exists w', PostVideo.get_account_browser_config_by_filepath
               (Examples.env_answering (Timeout "timed out")) "douyin_a.json"
               Examples.w0
             = (Ret (BrowserConfig "playwright" None), w').
Proof.
  split; [reflexivity|].
  apply (config_resolution_defaults
           (Examples.env_answering (Timeout "timed out")) 7 "douyin_a.json"
           Examples.w0); reflexivity.
Defined.

(** * The remote connector *)

Lemma bind_ret_eq {A B : Type} (m : M A) (k : A -> M B) (w w' : world) (a : A) :
  m w = (Ret a, w') -> bind m k w = k a w'.
Proof. intros H. unfold bind. rewrite H. reflexivity. Qed.

Lemma bind_raise_eq {A B : Type} (m : M A) (k : A -> M B) (w w' : world) (e : exn) :
  m w = (Raise e, w') -> bind m k w = (Raise e, w').
Proof. intros H. unfold bind. rewrite H. reflexivity. Qed.

Lemma try_except_ret_eq {A : Type} (m : M A) (classes : exn_class -> bool)
    (h : exn -> M A) (w w' : world) (a : A) :
  m w = (Ret a, w') -> try_except m classes h w = (Ret a, w').
Proof. intros H. unfold try_except. rewrite H. reflexivity. Qed.

Lemma try_except_caught_eq {A : Type} (m : M A) (classes : exn_class -> bool)
    (h : exn -> M A) (w w' : world) (e : exn) :
  m w = (Raise e, w') -> classes (exn_cls e) = true ->
  try_except m classes h w = h e w'.
Proof. intros H Hc. unfold try_except. rewrite H, Hc. reflexivity. Qed.

Lemma log_eq (lvl : log_level) (msg : string) (w : world) :
  log lvl msg w = (Ret tt, emit (ELog lvl msg) w).
Proof. reflexivity. Qed.

Lemma start_ok_eq (E : env) (w : world) :
  playwright_start E (trace w) = None ->
  Playwright.start E w = (Ret tt, emit EPlaywrightStart w).
Proof.
  intros H. unfold Playwright.start, bind, history, tell. simpl.
  rewrite H. reflexivity.
Qed.

Lemma connect_eq (E : env) (ws : json) (w : world) :
  Playwright.connect E ws w
  = (connect_over_cdp E (trace w) ws, emit (EConnectCDP ws) w).
Proof. reflexivity. Qed.

Lemma close_request_issued (E : env) (self : BitBrowserAPI) (browser_id : string)
    (w : world) :
  exists logs,
    trace (Api.close_browser E self browser_id w).2
    = (trace w ++ EPost (base_url self) "/browser/close"
                    (JObj [("id", JStr browser_id)]) :: logs)%list.
Proof.
  unfold Api.close_browser, bind. rewrite request_eq. simpl.
  destruct (Api.post_result _) as [j|e]; simpl.
  - exists []. destruct (py_get j "success" (JBool false)); reflexivity.
  - exists [ELog ERROR ("请求失败: " +:+ exn_msg e)].
    unfold lift. simpl. rewrite <- app_assoc. reflexivity.
Qed.

(** C5: when the health check passes, the window open returns a truthy
    result with a truthy [ws] endpoint, Playwright starts, and
    [connect_over_cdp] on that endpoint fails with an exception, then
    [open_browser] logs the failure, runs the client's [close_browser]
    for the same window id (a POST to /browser/close follows the attach
    attempt in the trace) and only then returns None. *)
Theorem open_browser_closes_window_when_attach_fails (E : env)
    (self : Connector.BitBrowserConnector) (browser_id : string)
    (headless : bool) (args : option (list string)) (w w1 w2 : world)
    (ok open_result ws : json) (e : exn) :
  Connector.check_connection E self w = (Ret ok, w1) ->
  truthy ok = true ->
  Api.open_browser E (Connector.api self) browser_id
    (Some (let l := match args with Some ((_ :: _) as l) => l | _ => [] end in
           if headless then (l ++ ["--headless"])%list else l))
    true None w1 = (Ret open_result, w2) ->
  truthy open_result = true ->
  py_get open_result "ws" JNull = Ret ws ->
  truthy ws = true ->
  let w3 := emit (ELog INFO ("成功打开浏览器窗口: " +:+ browser_id)) w2 in
  playwright_start E (trace w3) = None ->
  connect_over_cdp E (trace (emit EPlaywrightStart w3)) ws = Raise e ->
  is_Exception (exn_cls e) = true ->
  let w5 := emit (ELog ERROR ("连接Playwright到比特浏览器失败: " +:+ exn_msg e))
              (emit (EConnectCDP ws) (emit EPlaywrightStart w3)) in
  let closed := Api.close_browser E (Connector.api self) browser_id w5 in
  (exists logs,
      trace closed.2
      = (trace w5 ++ EPost (base_url (Connector.api self)) "/browser/close"
                       (JObj [("id", JStr browser_id)]) :: logs)%list) /\
  Connector.open_browser E self browser_id headless args w
  = (match closed.1 with
     | Ret _ => Ret (None, self)
     | Raise e' => Raise e'
     end, closed.2).
Proof.
  intros Hcheck Hok Hopen Hres Hws Hwst w3 Hstart Hattach Hexc w5 closed.
  split; [apply close_request_issued|].
  unfold Connector.open_browser.
  rewrite (bind_ret_eq _ _ _ _ _ Hcheck). rewrite Hok. cbn [negb].
  rewrite (bind_ret_eq _ _ _ _ _ Hopen). rewrite Hres. cbn [negb].
  unfold lift at 1. unfold bind at 1. rewrite Hws. rewrite Hwst. cbn [negb].
  rewrite (bind_ret_eq _ _ _ _ _ (log_eq _ _ _)). fold w3.
  rewrite (bind_ret_eq _ _ _ _ _ (start_ok_eq E w3 Hstart)).
  assert (Hc : Playwright.connect E ws (emit EPlaywrightStart w3)
               = (Raise e, emit (EConnectCDP ws) (emit EPlaywrightStart w3))).
  { rewrite connect_eq, Hattach. reflexivity. }
  rewrite (try_except_caught_eq _ _ _ _ _ _ (bind_raise_eq _ _ _ _ _ Hc) Hexc).
  rewrite (bind_ret_eq _ _ _ _ _ (log_eq _ _ _)). fold w5.
  unfold bind at 1. fold closed.
  destruct closed as [[v|e'] w']; reflexivity.
Qed.

Lemma open_browser_closes_window_when_attach_fails_witness :
  is_Exception PlaywrightError = true /\
  (Connector.open_browser
     (Examples.env_remote (Raise (Exn PlaywrightError "connect failed"))
        (fun _ => Absent))
     Examples.connector0 "w1" false None Examples.w0).1
  = Ret (None, Examples.connector0).
Proof.
  split; [reflexivity|].
  destruct (open_browser_closes_window_when_attach_fails
              (Examples.env_remote (Raise (Exn PlaywrightError "connect failed"))
                 (fun _ => Absent))
              Examples.connector0 "w1" false None Examples.w0 _ _ _ _ _ _
              eq_refl eq_refl eq_refl eq_refl eq_refl eq_refl eq_refl eq_refl
              eq_refl) as [_ H].
  rewrite H. reflexivity.
Defined.

(** ** Cookie stores *)

Lemma store_cookies_preserves (cs : list cookie)
    (jar : gmap (string * string * string) cookie) (k : string * string * string) :
  is_Some (jar !! k) -> is_Some (Playwright.store_cookies jar cs !! k).
Proof.
  revert jar. induction cs as [|c cs IH]; intros jar H; simpl; [exact H|].
  apply IH. destruct (decide (cookie_key c = k)) as [->|Hne].
  - rewrite lookup_insert_eq. eauto.
  - rewrite lookup_insert_ne by exact Hne. exact H.
Qed.

Lemma store_cookies_other (cs : list cookie)
    (jar : gmap (string * string * string) cookie) (k : string * string * string) :
  (forall c, c ∈ cs -> cookie_key c <> k) ->
  Playwright.store_cookies jar cs !! k = jar !! k.
Proof.
  revert jar. induction cs as [|c cs IH]; intros jar H; simpl; [reflexivity|].
  rewrite IH.
  - apply lookup_insert_ne. apply H. left.
  - intros c' Hc'. apply H. right. exact Hc'.
Qed.

Lemma store_cookies_adds (cs : list cookie)
    (jar : gmap (string * string * string) cookie) (c : cookie) :
  c ∈ cs -> is_Some (Playwright.store_cookies jar cs !! cookie_key c).
Proof.
  revert jar. induction cs as [|c' cs IH]; intros jar H; simpl.
  - inversion H.
  - apply elem_of_cons in H as [->|H].
    + apply store_cookies_preserves. rewrite lookup_insert_eq. eauto.
    + apply IH. exact H.
Qed.

Lemma update_context_eq (i : nat) (f : context -> context) (w : world) (c : context) :
  contexts w !! i = Some c ->
  Playwright.update_context i f w
  = (Ret tt, World (trace w) (<[i := f c]> (contexts w)) (_default_api w)
               (next_oid w)).
Proof. intros H. unfold Playwright.update_context. rewrite H. reflexivity. Qed.

(** Reading a valid storage-state file on the reuse path adds its
    cookies to the given context and touches nothing else. *)
Lemma merge_account_file_eq (E : env) (ctx : nat) (f : string)
    (d : list (string * json)) (cj : json) (cs : list cookie) (c0 : context)
    (w : world) :
  str_truthy f = true ->
  read_file E f = Document (JObj d) ->
  dict_get "cookies" d = Some cj ->
  Playwright.cookies_of_json cj = Ret cs ->
  contexts w !! ctx = Some c0 ->
  Connector.merge_account_file E ctx (Some f) w
  = (Ret tt,
     emit (ELog INFO "已添加cookies到context")
       (emit (EAddCookies ctx cs)
          (World (trace w)
             (<[ctx := Context (Playwright.store_cookies (ctx_cookies c0) cs)
                         (ctx_init_scripts c0)]> (contexts w))
             (_default_api w) (next_oid w)))).
Proof.
  intros Hf Hread Hd Hcs Hctx.
  unfold Connector.merge_account_file. rewrite Hf, Hread.
  unfold py_in, py_index, dict_has. rewrite Hd.
  unfold lift at 1. unfold bind at 1. cbv beta iota.
  unfold lift at 1. unfold bind at 1. cbv beta iota.
  unfold Playwright.add_cookies. rewrite Hcs.
  unfold lift at 1. unfold bind at 2. cbv beta iota.
  rewrite (bind_ret_eq _ _ _ _ _
             (bind_ret_eq _ _ _ _ _ (update_context_eq ctx _ w c0 Hctx))).
  reflexivity.
Qed.

Lemma store_cookies_lookup (cs : list cookie)
    (jar : gmap (string * string * string) cookie) (k : string * string * string) :
  Playwright.store_cookies jar cs !! k
  = match last_with_key k cs with
    | Some c => Some c
    | None => jar !! k
    end.
Proof.
  revert jar. induction cs as [|c cs IH]; intros jar; simpl; [reflexivity|].
  rewrite IH. destruct (last_with_key k cs) as [c'|]; [reflexivity|].
  destruct (decide (cookie_key c = k)) as [->|Hne].
  - apply lookup_insert_eq.
  - apply lookup_insert_ne. exact Hne.
Qed.

(** C7, as the code has it: when the attached browser already has a
    context and the account file is a valid storage-state document,
    [get_or_create_browser] returns that same context (no context is
    created, no initialization script added) with the file's cookies
    stored in it.  Under each name, domain and path the context then
    holds the file's cookie (the last one of the file), and where the
    file has none, the cookie the context had before, unchanged; so no
    name, domain and path that was present is dropped, but a cookie
    that was present is replaced by the file's cookie of the same name,
    domain and path. *)
Theorem reuse_merges_cookies (E : env)
    (self self' : Connector.BitBrowserConnector) (browser_id : string)
    (headless : bool) (f : string) (b : browser) (ctx : nat) (rest : list nat)
    (c0 : context) (d : list (string * json)) (cj : json) (cs : list cookie)
    (w0 w : world) :
  Connector.open_browser E self browser_id headless None w0
  = (Ret (Some b, self'), w) ->
  browser_contexts b = ctx :: rest ->
  contexts w !! ctx = Some c0 ->
  str_truthy f = true ->
  read_file E f = Document (JObj d) ->
  dict_get "cookies" d = Some cj ->
  Playwright.cookies_of_json cj = Ret cs ->
  exists (w' : world) (c1 : context),
    Connector.get_or_create_browser E self browser_id headless (Some f) w0
    = (Ret (Some b, Some ctx, self'), w') /\
    contexts w' !! ctx = Some c1 /\
    length (contexts w') = length (contexts w) /\
    ctx_init_scripts c1 = ctx_init_scripts c0 /\
    (forall k, ctx_cookies c1 !! k
               = match last_with_key k cs with
                 | Some c => Some c
                 | None => ctx_cookies c0 !! k
                 end) /\
    (forall k, is_Some (ctx_cookies c0 !! k) -> is_Some (ctx_cookies c1 !! k)).
Proof.
  intros Hopen Hb Hctx Hf Hread Hd Hcs.
  eexists. exists (Context (Playwright.store_cookies (ctx_cookies c0) cs)
                     (ctx_init_scripts c0)).
  split.
  { unfold Connector.get_or_create_browser.
    rewrite (bind_ret_eq _ _ _ _ _ Hopen). cbv beta iota. rewrite Hb.
    apply try_except_ret_eq.
    rewrite (bind_ret_eq _ _ _ _ _ (log_eq _ _ _)).
    rewrite (bind_ret_eq _ _ _ _ _
               (merge_account_file_eq E ctx f d cj cs c0
                  (emit (ELog INFO "使用比特浏览器已有的context") w)
                  Hf Hread Hd Hcs Hctx)).
    reflexivity. }
  simpl. split.
  { apply list_lookup_insert_eq. eapply lookup_lt_Some. exact Hctx. }
  split; [apply length_insert|].
  split; [reflexivity|].
  split; [intros k; apply store_cookies_lookup|].
  intros k; apply store_cookies_preserves.
Qed.

Lemma reuse_merges_cookies_witness :
  str_truthy "cookies/douyin_a.json" = true /\
  exists (w' : world) (c1 : context),
    Connector.get_or_create_browser
      (Examples.env_remote (Ret (Browser 1 [0%nat]))
         (fun _ => Examples.state_file_b))
      Examples.connector0 "w1" false (Some "cookies/douyin_a.json")
      Examples.w_with_a
    = (Ret (Some (Browser 1 [0%nat]), Some 0%nat,
            Connector.MkConnector Examples.api0 "http://127.0.0.1:54345"
              (Some "w1")), w') /\
    contexts w' !! 0%nat = Some c1 /\
    ctx_cookies c1 !! cookie_key Examples.cookie_a = Some Examples.cookie_a /\
    ctx_cookies c1 !! cookie_key Examples.cookie_b = Some Examples.cookie_b.
Proof.
  split; [reflexivity|].
  destruct (reuse_merges_cookies
              (Examples.env_remote (Ret (Browser 1 [0%nat]))
                 (fun _ => Examples.state_file_b))
              Examples.connector0 _ "w1" false "cookies/douyin_a.json"
              (Browser 1 [0%nat]) 0%nat [] _ _ _ [Examples.cookie_b]
              Examples.w_with_a _
              eq_refl eq_refl eq_refl eq_refl eq_refl eq_refl eq_refl)
    as (w' & c1 & H1 & H2 & _ & _ & H5 & _).
  exists w', c1. split; [exact H1|]. split; [exact H2|]. split.
  - rewrite H5. unfold last_with_key. rewrite decide_False by discriminate.
    apply lookup_singleton_eq.
  - rewrite H5. unfold last_with_key. rewrite decide_True by reflexivity.
    reflexivity.
Defined.

(** C7 as stated fails: the context holds cookie A, the file holds a
    cookie of the same name, domain and path with another value; after
    the merge the context no longer holds cookie A but the file's
    cookie. *)
Lemma reuse_replaces_cookie_of_same_key :
  exists (w' : world) (c0 c1 : context),
    Connector.get_or_create_browser
      (Examples.env_remote (Ret (Browser 1 [0%nat]))
         (fun _ => Examples.state_file_stale_a))
      Examples.connector0 "w1" false (Some "cookies/douyin_a.json")
      Examples.w_with_a
    = (Ret (Some (Browser 1 [0%nat]), Some 0%nat,
            Connector.MkConnector Examples.api0 "http://127.0.0.1:54345"
              (Some "w1")), w') /\
    contexts Examples.w_with_a !! 0%nat = Some c0 /\
    ctx_cookies c0 !! cookie_key Examples.cookie_a = Some Examples.cookie_a /\
    contexts w' !! 0%nat = Some c1 /\
    ctx_cookies c1 !! cookie_key Examples.cookie_a
    = Some (Cookie "sid" ".douyin.com" "/" "STALE") /\
    ctx_cookies c1 !! cookie_key Examples.cookie_a <> Some Examples.cookie_a.
Proof.
  eexists. do 2 eexists.
  split; [reflexivity|]. split; [reflexivity|].
  split; [apply lookup_singleton_eq|].
  split; [reflexivity|].
  assert (Hk : Playwright.store_cookies
                 {[cookie_key Examples.cookie_a := Examples.cookie_a]}
                 [Cookie "sid" ".douyin.com" "/" "STALE"]
               !! cookie_key Examples.cookie_a
               = Some (Cookie "sid" ".douyin.com" "/" "STALE")).
  { rewrite store_cookies_lookup. unfold last_with_key.
    rewrite decide_True by reflexivity. reflexivity. }
  split; [exact Hk|].
  intros H. assert (H' := eq_trans (eq_sym Hk) H). discriminate H'.
Qed.

(** * The anti-detection script *)

(** A context made by [new_context] and passed to [set_init_script] is a
    fresh one at the end of the heap, with the script added once. *)
Lemma new_context_then_init (E : env) (b : browser) (ss : Playwright.storage_arg)
    (w w' : world) (ctx : nat) :
  bind (Playwright.new_context E b ss) set_init_script w = (Ret ctx, w') ->
  ctx = length (contexts w) /\
  exists jar, contexts w' = (contexts w ++ [Context jar 1])%list.
Proof.
  unfold Playwright.new_context, set_init_script, bind, lift, tell,
    Playwright.update_context.
  destruct (Playwright.load_state E ss) as [cs|e]; simpl; [|discriminate].
  rewrite lookup_app_r by lia. rewrite Nat.sub_diag. simpl.
  intros [= <- <-]. split; [reflexivity|].
  exists (Playwright.store_cookies ∅ cs). simpl.
  rewrite insert_app_r_alt by lia. rewrite Nat.sub_diag. reflexivity.
Qed.

Lemma create_context_initialised_once (E : env)
    (self : Connector.BitBrowserConnector) (b : browser)
    (account_file : option string) (storage_state : option json)
    (w w' : world) (ctx : nat) :
  Connector.create_context_from_browser E self b account_file storage_state w
  = (Ret ctx, w') ->
  ctx = length (contexts w) /\
  exists jar, contexts w' = (contexts w ++ [Context jar 1])%list.
Proof.
  unfold Connector.create_context_from_browser.
  destruct account_file as [f|]; [destruct (str_truthy f)|];
    destruct storage_state as [st|]; try destruct (truthy st);
    apply new_context_then_init.
Qed.

(** On the local backend a created session has a fresh context with the
    script added once. *)
Lemma local_session_initialised_once (E : env) (mgr : Connector.BrowserManager)
    (browser_id account_file : option string) (w w' : world) (b : browser)
    (ctx : nat) :
  Connector.browser_type mgr <> "bitbrowser" ->
  Connector.create_browser E mgr browser_id account_file w
  = (Ret (Some b, Some ctx), w') ->
  ctx = length (contexts w) /\
  exists jar, contexts w' = (contexts w ++ [Context jar 1])%list.
Proof.
  intros Hty. unfold Connector.create_browser.
  destruct (String.eqb_spec (Connector.browser_type mgr) "bitbrowser");
    [contradiction|].
  unfold Playwright.start, Playwright.chromium_launch, Playwright.new_context,
    set_init_script, Playwright.update_context, bind, history, tell, lift,
    ret, raise. simpl.
  destruct (playwright_start E (trace w)); [discriminate|].
  destruct (launch E _ _ _) as [b0|e0]; [|discriminate].
  destruct (Playwright.load_state E _) as [cs|e1]; simpl; [|discriminate].
  rewrite lookup_app_r by lia. rewrite Nat.sub_diag. simpl.
  intros [= <- <- <-]. split; [reflexivity|].
  exists (Playwright.store_cookies ∅ cs). simpl.
  rewrite insert_app_r_alt by lia. rewrite Nat.sub_diag. reflexivity.
Qed.

(** On the reuse path without an account file the heap is left as it
    was: the returned context is the browser's first one and no
    initialization script is added to it. *)
Lemma reuse_leaves_context_untouched (E : env)
    (self self' : Connector.BitBrowserConnector) (browser_id : string)
    (headless : bool) (b : browser) (ctx : nat) (rest : list nat)
    (w0 w : world) :
  Connector.open_browser E self browser_id headless None w0
  = (Ret (Some b, self'), w) ->
  browser_contexts b = ctx :: rest ->
  Connector.get_or_create_browser E self browser_id headless None w0
  = (Ret (Some b, Some ctx, self'),
     emit (ELog INFO "使用比特浏览器已有的context") w).
Proof.
  intros Hopen Hb. unfold Connector.get_or_create_browser.
  rewrite (bind_ret_eq _ _ _ _ _ Hopen). cbv beta iota. rewrite Hb.
  reflexivity.
Qed.

(** C1 at its failing input: the remote window comes with one context
    that has no initialization script; both entry points hand that
    context back with the script still applied zero times. *)
Theorem reused_context_gets_no_init_script :
  exists (mgr : Connector.BrowserManager) (w1 w2 w3 : world),
    Connector.manager_init "bitbrowser" "http://127.0.0.1:54345" None false
      Examples.w_with_a = (Ret mgr, w1) /\
    Connector.create_browser
      (Examples.env_remote (Ret (Browser 1 [0%nat])) (fun _ => Absent))
      mgr (Some "w1") None w1
    = (Ret (Some (Browser 1 [0%nat]), Some 0%nat), w2) /\
    ctx_init_scripts <$> (contexts w2 !! 0%nat) = Some 0%nat /\
    Helper.create_browser_and_context Conf.example
      (Examples.env_remote (Ret (Browser 1 [0%nat])) (fun _ => Absent))
      (Some "bitbrowser") (Some "w1") None None Examples.w_with_a
    = (Ret (Browser 1 [0%nat], 0%nat), w3) /\
    ctx_init_scripts <$> (contexts w3 !! 0%nat) = Some 0%nat.
Proof. do 4 eexists. repeat split; reflexivity. Qed.

(** * The scheduler *)
Section SchedulerFacts.
Import Scheduler.

Lemma map_seq_lookup {A : Type} (f : nat -> A) (n a i : nat) :
  map f (seq a n) !! i = if Nat.ltb i n then Some (f (a + i)%nat) else None.
Proof.
  revert a i. induction n as [|n IH]; intros a i; simpl.
  - destruct i; reflexivity.
  - destruct i as [|i]; simpl.
    + rewrite Nat.add_0_r. reflexivity.
    + rewrite IH. replace (S a + i)%nat with (a + S i)%nat by lia.
      reflexivity.
Qed.

Lemma schedule_lookup (win : window) (now : Z) (r : ScheduleRequest)
    (i : nat) (x : Z) :
  schedule win now r !! i = Some x ->
  (i < itemCount r)%nat /\ x = timestamp win now r i.
Proof.
  unfold schedule. rewrite map_seq_lookup.
  destruct (Nat.ltb_spec i (itemCount r)); [|discriminate].
  intros [= <-]. split; [assumption|reflexivity].
Qed.

Lemma slot_ascending (win : window) (r : ScheduleRequest) (k1 k2 : nat) :
  (1 <= itemsPerDay r)%nat -> slots_ascending win r ->
  (k1 <= k2)%nat -> (k2 < itemsPerDay r)%nat ->
  (slot win r k1 <= slot win r k2)%nat /\ (slot win r k2 < 1440)%nat.
Proof.
  unfold slot, slots_ascending. intros Hn Hasc H12 H2.
  destruct (timesOfDay r) as [ts|].
  - destruct Hasc as (Hlen & Hvalid & Hsorted).
    rewrite !Nat.mod_small by lia.
    destruct (lookup_lt_is_Some_2 ts k1 ltac:(lia)) as [s Hs].
    destruct (lookup_lt_is_Some_2 ts k2 ltac:(lia)) as [t Ht].
    rewrite (nth_lookup_Some _ _ _ _ Hs), (nth_lookup_Some _ _ _ _ Ht).
    split; [apply (Hsorted k1 k2); assumption|].
    pose proof (Forall_lookup_1 _ _ _ _ Hvalid Ht) as [Hh Hm].
    unfold minute_of. lia.
  - destruct Hasc as [Hse He].
    set (W := (day_end win - day_start win)%nat).
    assert (Hmono : (k1 * W / itemsPerDay r <= k2 * W / itemsPerDay r)%nat).
    { apply Nat.Div0.div_le_mono. apply Nat.mul_le_mono_r. exact H12. }
    assert (Hbound : (k2 * W / itemsPerDay r <= W)%nat).
    { rewrite <- (Nat.div_mul W (itemsPerDay r)) at 2 by lia.
      apply Nat.Div0.div_le_mono. rewrite (Nat.mul_comm k2 W).
      apply Nat.mul_le_mono_l. lia. }
    subst W. lia.
Qed.

Lemma timestamp_monotone (win : window) (now : Z) (r : ScheduleRequest)
    (i j : nat) :
  (1 <= itemsPerDay r)%nat -> slots_ascending win r -> (i <= j)%nat ->
  (timestamp win now r i <= timestamp win now r j)%Z.
Proof.
  intros Hn Hasc Hij. unfold timestamp.
  set (n := itemsPerDay r) in *.
  assert (Hi := Nat.div_mod_eq i n). assert (Hj := Nat.div_mod_eq j n).
  assert (Hmi : (i mod n < n)%nat) by (apply Nat.mod_upper_bound; lia).
  assert (Hmj : (j mod n < n)%nat) by (apply Nat.mod_upper_bound; lia).
  assert (Hdiv : (i / n <= j / n)%nat) by (apply Nat.Div0.div_le_mono; exact Hij).
  destruct (decide (i / n = j / n)) as [Heq|Hne].
  - assert (Hmod : (i mod n <= j mod n)%nat) by (rewrite Heq in Hi; nia).
    destruct (slot_ascending win r _ _ Hn Hasc Hmod Hmj) as [Hs _].
    rewrite Heq. lia.
  - destruct (slot_ascending win r _ _ Hn Hasc (Nat.le_refl _) Hmi) as [_ Hs].
    assert ((i / n + 1 <= j / n)%nat) by lia. lia.
Qed.

Lemma timestamp_future (win : window) (now : Z) (r : ScheduleRequest) (i : nat) :
  (now < timestamp win now r i)%Z.
Proof.
  unfold timestamp.
  pose proof (Z.div_mod now 1440 ltac:(lia)).
  pose proof (Z.mod_pos_bound now 1440 ltac:(lia)). lia.
Qed.

(** C8, as the spec's scheduler has it: the result has exactly
    [itemCount] timestamps and is empty for [itemCount = 0]; every
    timestamp is strictly after now; the result is non-decreasing when
    the times of day in force are ascending and no day needs more of
    them than there are (so that none is reused inside a day). *)
Theorem schedule_properties (win : window) (now : Z) (r : ScheduleRequest) :
  (1 <= itemsPerDay r)%nat ->
  length (schedule win now r) = itemCount r /\
  (itemCount r = 0%nat -> schedule win now r = []) /\
  Forall (fun t => (now < t)%Z) (schedule win now r) /\
  (slots_ascending win r -> non_decreasing (schedule win now r)).
Proof.
  intros Hn. split; [|split; [|split]].
  - unfold schedule. rewrite length_map, length_seq. reflexivity.
  - intros H0. unfold schedule. rewrite H0. reflexivity.
  - apply Forall_lookup_2. intros i x Hx.
    apply schedule_lookup in Hx as [_ ->]. apply timestamp_future.
  - intros Hasc i j x y Hij Hx Hy.
    apply schedule_lookup in Hx as [_ ->]. apply schedule_lookup in Hy as [_ ->].
    apply timestamp_monotone; assumption.
Qed.

Lemma schedule_properties_witness :
  (1 <= 2)%nat /\
  slots_ascending (MkWindow 480 1200)
    (MkRequest 5 2 (Some [(9, 0); (18, 0)]%nat) 0) /\
  length (schedule (MkWindow 480 1200) 600
            (MkRequest 5 2 (Some [(9, 0); (18, 0)]%nat) 0)) = 5%nat /\
  Forall (fun t => (600 < t)%Z)
    (schedule (MkWindow 480 1200) 600
       (MkRequest 5 2 (Some [(9, 0); (18, 0)]%nat) 0)) /\
  non_decreasing (schedule (MkWindow 480 1200) 600
                    (MkRequest 5 2 (Some [(9, 0); (18, 0)]%nat) 0)).
Proof.
  assert (Hasc : slots_ascending (MkWindow 480 1200)
                   (MkRequest 5 2 (Some [(9, 0); (18, 0)]%nat) 0)).
  { split; [simpl; lia|]. split.
    - repeat constructor; simpl; lia.
    - intros a b s t Hab Ha Hb.
      destruct a as [|[|a]], b as [|[|b]]; simpl in Ha, Hb;
        try discriminate; try lia;
        injection Ha as <-; injection Hb as <-; unfold minute_of; simpl; lia. }
  split; [lia|]. split; [exact Hasc|].
  destruct (schedule_properties (MkWindow 480 1200) 600
              (MkRequest 5 2 (Some [(9, 0); (18, 0)]%nat) 0))
    as (Hlen & _ & Hfut & Hmono); [simpl; lia|].
  split; [exact Hlen|]. split; [exact Hfut|exact (Hmono Hasc)].
Defined.

(** The spec's worked example: five items, two per day, at 09:00 and
    18:00, no start offset; now is 10:00 on day 0, so the first day given
    out is day 1. *)
Example schedule_worked_example :
  schedule (MkWindow 480 1200) 600 (MkRequest 5 2 (Some [(9, 0); (18, 0)]%nat) 0)
  = [1980; 2520; 3420; 3960; 4860]%Z.
Proof. reflexivity. Qed.

(** C8 as stated fails on the spec's scheduler: three items on one day
    with two supplied times reuse 09:00 after 18:00, so the result
    decreases. *)
Lemma schedule_claim_fails :
  ~ non_decreasing
      (schedule (MkWindow 480 1200) 0
         (MkRequest 3 3 (Some [(9, 0); (18, 0)]%nat) 0)).
Proof.
  intros H. specialize (H 1%nat 2%nat 2520%Z 1980%Z).
  assert (2520 <= 1980)%Z by (apply H; [lia|reflexivity|reflexivity]). lia.
Qed.

End SchedulerFacts.

(** * Further facts about the service client *)

Lemma endpoints_app (t1 t2 : list event) :
  endpoints (t1 ++ t2) = (endpoints t1 ++ endpoints t2)%list.
Proof.
  induction t1 as [|e t1 IH]; simpl; [reflexivity|].
  destruct e; simpl; rewrite IH; reflexivity.
Qed.

Lemma request_total (E : env) (self : BitBrowserAPI)
    (endpoint : string) (data : option json) (w : world) :
  exists (j : json) (logs : list event),
    Api._request E self endpoint data w
    = (Ret j,
       World (trace w ++ EPost (base_url self) endpoint (payload_of data) :: logs)
         (contexts w) (_default_api w) (next_oid w)) /\
    Forall is_log logs.
Proof.
  rewrite request_eq. simpl.
  destruct (Api.post_result _) as [j|e].
  - exists j, []. split; [reflexivity|constructor].
  - exists (failure_dict (exn_msg e)), [ELog ERROR ("请求失败: " +:+ exn_msg e)].
    split; [|repeat constructor].
    unfold emit. simpl. rewrite <- app_assoc. reflexivity.
Qed.

Ltac split_py :=
  repeat match goal with
         | |- context [py_get ?a ?b ?c] => destruct (py_get a b c); simpl
         | |- context [truthy ?a] => destruct (truthy a); simpl
         | |- context [py_in ?a ?b] => destruct (py_in a b) as [[|]|]; simpl
         | |- context [py_index ?a ?b] => destruct (py_index a b); simpl
         | |- context [py_gt0 ?a] => destruct (py_gt0 a); simpl
         end.

Lemma run_op_endpoints (E : env) (self : BitBrowserAPI) (op : operation)
    (w : world) :
  endpoints (trace (run_op E self op w).2)
  = (endpoints (trace w) ++ [endpoint_of op])%list.
Proof.
  destruct op; simpl;
    unfold Api.health_check, Api.create_browser, Api.open_browser,
      Api.close_browser, Api.delete_browser, Api.get_browser_detail,
      Api.list_browsers, Api.is_browser_opened, Api.get_browser_pids,
      Api.update_browser_proxy, Api.reset_browser_status, Api.get_cookies,
      Api.set_cookies, Api.clear_cookies, Api.create_browser_for_platform,
      Api.create_browser, Api.data_if_success;
    unfold bind; rewrite request_eq; cbv zeta;
    destruct (Api.post_result _) as [j|e];
    unfold lift, ret; simpl;
    split_py; simpl;
    rewrite ?endpoints_app; simpl; rewrite ?app_nil_r; reflexivity.
Qed.

(** X1: [_request] never raises, whatever the transport does: it returns
    a value after exactly one POST (of [data], or of the empty object
    when [data] is None or empty), followed at most by a log line, and
    leaves the context heap and the client singleton alone. *)
Theorem request_never_raises (E : env) (self : BitBrowserAPI)
    (endpoint : string) (data : option json) (w : world) :
  exists (j : json) (logs : list event),
    Api._request E self endpoint data w
    = (Ret j,
       World (trace w ++ EPost (base_url self) endpoint (payload_of data) :: logs)
         (contexts w) (_default_api w) (next_oid w)) /\
    Forall is_log logs.
Proof. exact (request_total E self endpoint data w). Qed.

(** X2: every operation of the client, whether it returns or raises,
    sends exactly one request, to its own endpoint. *)
Theorem operation_posts_once (E : env) (self : BitBrowserAPI) (op : operation)
    (w : world) :
  endpoints (trace (run_op E self op w).2)
  = (endpoints (trace w) ++ [endpoint_of op])%list.
Proof. exact (run_op_endpoints E self op w). Qed.

Example lower_mixed_case : Connector.lower "BitBrowser" = "bitbrowser".
Proof. reflexivity. Qed.

Example rstrip_slash_example :
  Api.rstrip_slash "http://127.0.0.1:2000//" = "http://127.0.0.1:2000".
Proof. reflexivity. Qed.


Lemma rstrip_slash_no_trailing (s : string) :
  ends_with_slash (Api.rstrip_slash s) = false.
Proof.
  induction s as [|c r IH]; simpl; [reflexivity|].
  destruct (Api.rstrip_slash r) as [|c' r'] eqn:Hr.
  - destruct (Ascii.eqb c "/") eqn:Hc; simpl; [reflexivity|exact Hc].
  - exact IH.
Qed.

Lemma rstrip_slash_split (s : string) :
  exists n, s = Api.rstrip_slash s +:+ slashes n.
Proof.
  induction s as [|c r [n IH]]; simpl.
  - exists 0%nat. reflexivity.
  - destruct (Api.rstrip_slash r) as [|c' r'] eqn:Hr.
    + destruct (Ascii.eqb_spec c "/") as [->|Hc].
      * exists (S n). simpl. rewrite IH at 1. reflexivity.
      * exists n. simpl. rewrite IH at 1. reflexivity.
    + exists n. simpl. rewrite IH at 1. reflexivity.
Qed.

Lemma rstrip_slash_fixed (s : string) :
  ends_with_slash s = false -> Api.rstrip_slash s = s.
Proof.
  induction s as [|c r IH]; simpl; [reflexivity|].
  destruct r as [|c' r'].
  - simpl. intros ->. reflexivity.
  - intros H. rewrite (IH H). reflexivity.
Qed.

(** X3: the base address a client is created with is stored without its
    trailing slashes and is otherwise unchanged: the stored address does
    not end in a slash, the given one is the stored one followed by
    slashes only, and stripping again changes nothing. *)
Theorem client_base_url_normalised (base : string) (w : world) :
  exists (a : BitBrowserAPI) (w' : world) (n : nat),
    Api.init base w = (Ret a, w') /\
    ends_with_slash (base_url a) = false /\
    base = base_url a +:+ slashes n /\
    Api.rstrip_slash (base_url a) = base_url a.
Proof.
  destruct (rstrip_slash_split base) as [n Hn].
  eexists. eexists. exists n. split; [reflexivity|]. simpl.
  split; [apply rstrip_slash_no_trailing|].
  split; [exact Hn|].
  apply rstrip_slash_fixed, rstrip_slash_no_trailing.
Qed.

(** X4: when the process-id lookup succeeds with an object as data,
    [is_browser_opened] is True exactly for a window listed with a
    positive process id; a window that is not listed gives False, and a
    process id that is neither a number nor a boolean raises TypeError. *)
Theorem is_browser_opened_reads_pid (E : env) (self : BitBrowserAPI)
    (browser_id : string) (w : world) (d pids : list (string * json))
    (ok : json) :
  Api.post_result (http E (trace w) (base_url self) "/browser/pids"
                     (JObj [("ids", JArr [JStr browser_id])])) = Ret (JObj d) ->
  dict_get "success" d = Some ok ->
  truthy ok = true ->
  dict_get "data" d = Some (JObj pids) ->
  (Api.is_browser_opened E self browser_id w).1
  = match dict_get browser_id pids with
    | None => Ret (JBool false)
    | Some (JNum pid) => Ret (JBool (Z.ltb 0 pid))
    | Some (JBool b) => Ret (JBool b)
    | Some _ => Raise (Exn TypeError "'>' not supported")
    end.
Proof.
  intros Hp Hok Ht Hd.
  unfold Api.is_browser_opened, Api.get_browser_pids, bind.
  rewrite request_eq. cbv zeta. simpl payload_of. rewrite Hp.
  unfold lift. simpl. rewrite Hok. simpl. rewrite Ht. simpl. rewrite Hd. simpl.
  unfold dict_has. destruct (dict_get browser_id pids) as [v|]; simpl;
    [|reflexivity].
  destruct v; reflexivity.
Qed.

Lemma is_browser_opened_reads_pid_witness :
  truthy (JBool true) = true /\
  (Api.is_browser_opened
     (Examples.env_answering
        (Response 200 "OK"
           (Json (JObj [("success", JBool true);
                        ("data", JObj [("w1", JNum 4242)])]))))
     Examples.api0 "w1" Examples.w0).1
  = Ret (JBool true).
Proof.
  split; [reflexivity|].
  apply (is_browser_opened_reads_pid
           (Examples.env_answering
              (Response 200 "OK"
                 (Json (JObj [("success", JBool true);
                              ("data", JObj [("w1", JNum 4242)])]))))
           Examples.api0 "w1" Examples.w0
           [("success", JBool true); ("data", JObj [("w1", JNum 4242)])]
           [("w1", JNum 4242)] (JBool true)); reflexivity.
Defined.

Lemma dict_get_set_eq (k : string) (v : json) (d : list (string * json)) :
  dict_get k (dict_set k v d) = Some v.
Proof.
  induction d as [|[k' v'] d IH]; simpl.
  - rewrite String.eqb_refl. reflexivity.
  - destruct (String.eqb k k') eqn:Hk; simpl; rewrite ?Hk, ?String.eqb_refl;
      [reflexivity|exact IH].
Qed.

Lemma dict_get_set_ne (k k' : string) (v : json) (d : list (string * json)) :
  k' <> k -> dict_get k' (dict_set k v d) = dict_get k' d.
Proof.
  intros Hne. induction d as [|[k0 v0] d IH]; simpl.
  - destruct (String.eqb_spec k' k); [contradiction|reflexivity].
  - destruct (String.eqb_spec k k0) as [->|Hk]; simpl.
    + destruct (String.eqb_spec k' k0); [contradiction|reflexivity].
    + rewrite IH. reflexivity.
Qed.

Lemma dict_set_truthy (k : string) (v : json) (d : list (string * json)) :
  truthy (JObj (dict_set k v d)) = true.
Proof.
  destruct d as [|[k0 v0] rest]; simpl; [reflexivity|].
  destruct (String.eqb k k0); reflexivity.
Qed.

(** X5: [create_browser] sends the caller's configuration with its own
    fingerprint when it has one and with the default fingerprint
    otherwise; every other field is sent as given. *)
Theorem create_browser_fingerprint (E : env) (self : BitBrowserAPI)
    (browser_config : list (string * json)) (w : world) :
  exists (payload : list (string * json)) (logs : list event),
    trace (Api.create_browser E self browser_config w).2
    = (trace w ++ EPost (base_url self) "/browser/update" (JObj payload) :: logs)%list /\
    dict_get "browserFingerPrint" payload
    = Some (match dict_get "browserFingerPrint" browser_config with
            | Some fp => fp
            | None => Api.default_fingerprint
            end) /\
    forall k, k <> "browserFingerPrint" ->
              dict_get k payload = dict_get k browser_config.
Proof.
  unfold Api.create_browser, dict_has.
  destruct (dict_get "browserFingerPrint" browser_config) as [fp|] eqn:Hfp.
  - destruct (request_total E self "/browser/update"
                (Some (JObj browser_config)) w) as (j & logs & Hr & _).
    exists browser_config, logs. rewrite Hr. simpl.
    destruct browser_config as [|kv rest]; [discriminate|].
    split; [reflexivity|]. split; [exact Hfp|reflexivity].
  - set (cfg := dict_set "browserFingerPrint" Api.default_fingerprint browser_config).
    destruct (request_total E self "/browser/update" (Some (JObj cfg)) w)
      as (j & logs & Hr & _).
    exists cfg, logs. rewrite Hr. unfold payload_of. subst cfg.
    rewrite dict_set_truthy. split; [reflexivity|].
    split; [apply dict_get_set_eq|].
    intros k Hk. apply dict_get_set_ne. exact Hk.
Qed.

(** X6: on a successful answer [list_browsers] returns the [list] field
    of the data object; an answer without [data], or data without
    [list], gives the empty list (not None), while data that is not an
    object (such as null) raises AttributeError. *)
Theorem list_browsers_result (E : env) (self : BitBrowserAPI)
    (page page_size : Z) (group_id name : option string) (w : world)
    (d : list (string * json)) (ok : json) :
  (forall data, Api.post_result (http E (trace w) (base_url self)
                                   "/browser/list" data) = Ret (JObj d)) ->
  dict_get "success" d = Some ok ->
  truthy ok = true ->
  (Api.list_browsers E self page page_size group_id name w).1
  = match dict_get "data" d with
    | None => Ret (JArr [])
    | Some (JObj fields) => Ret (Api.opt_get "list" fields (JArr []))
    | Some _ => Raise (Exn AttributeError "object has no attribute 'get'")
    end.
Proof.
  intros Hp Hok Ht.
  unfold Api.list_browsers, bind. rewrite request_eq. cbv zeta. rewrite Hp.
  unfold lift. simpl. rewrite Hok. simpl. rewrite Ht. simpl.
  destruct (dict_get "data" d) as [v|]; [destruct v|]; reflexivity.
Qed.

Lemma list_browsers_result_witness :
  truthy (JBool true) = true /\
  (Api.list_browsers
     (Examples.env_answering
        (Response 200 "OK" (Json (JObj [("success", JBool true)]))))
     Examples.api0 0 100 None None Examples.w0).1
  = Ret (JArr []).
Proof.
  split; [reflexivity|].
  apply (list_browsers_result
           (Examples.env_answering
              (Response 200 "OK" (Json (JObj [("success", JBool true)]))))
           Examples.api0 0 100 None None Examples.w0
           [("success", JBool true)] (JBool true)); reflexivity.
Defined.

(** X7: the window-creation request of [create_browser_for_platform]
    always carries the name, the platform and the built-in fingerprint;
    with a non-empty proxy configuration it carries [proxyMethod = 2],
    host, port, the proxy type ("socks5" when the configuration names
    none) and the user name and password exactly when the configuration
    has them; without one it carries none of the six proxy fields. *)
Theorem platform_window_request (E : env) (self : BitBrowserAPI)
    (name platform_url : string) (remark : option string)
    (proxy_config : option (list (string * json))) (w : world) :
  exists (payload : list (string * json)) (logs : list event),
    trace (Api.create_browser_for_platform E self name platform_url remark
             proxy_config w).2
    = (trace w ++ EPost (base_url self) "/browser/update" (JObj payload) :: logs)%list /\
    dict_get "name" payload = Some (JStr name) /\
    dict_get "platform" payload = Some (JStr platform_url) /\
    dict_get "browserFingerPrint" payload = Some Api.default_fingerprint /\
    match proxy_config with
    | Some ((_ :: _) as pc) =>
        dict_get "proxyMethod" payload = Some (JNum 2) /\
        dict_get "proxyType" payload = Some (Api.opt_get "type" pc (JStr "socks5")) /\
        dict_get "host" payload = Some (Api.opt_get "host" pc JNull) /\
        dict_get "port" payload = Some (Api.opt_get "port" pc JNull) /\
        dict_get "proxyUserName" payload = dict_get "username" pc /\
        dict_get "proxyPassword" payload = dict_get "password" pc
    | _ =>
        dict_get "proxyMethod" payload = None /\
        dict_get "proxyType" payload = None /\
        dict_get "host" payload = None /\
        dict_get "port" payload = None /\
        dict_get "proxyUserName" payload = None /\
        dict_get "proxyPassword" payload = None
    end.
Proof.
  unfold Api.create_browser_for_platform.
  set (cfg := match proxy_config with Some (_ :: _ as pc) => _ | _ => _ end).
  assert (Hfp : dict_has "browserFingerPrint" cfg = true
                /\ truthy (JObj cfg) = true
                /\ dict_get "name" cfg = Some (JStr name)
                /\ dict_get "platform" cfg = Some (JStr platform_url)
                /\ dict_get "browserFingerPrint" cfg = Some Api.default_fingerprint
                /\ match proxy_config with
                   | Some ((_ :: _) as pc) =>
                       dict_get "proxyMethod" cfg = Some (JNum 2) /\
                       dict_get "proxyType" cfg
                       = Some (Api.opt_get "type" pc (JStr "socks5")) /\
                       dict_get "host" cfg = Some (Api.opt_get "host" pc JNull) /\
                       dict_get "port" cfg = Some (Api.opt_get "port" pc JNull) /\
                       dict_get "proxyUserName" cfg = dict_get "username" pc /\
                       dict_get "proxyPassword" cfg = dict_get "password" pc
                   | _ => dict_get "proxyMethod" cfg = None /\
                          dict_get "proxyType" cfg = None /\
                          dict_get "host" cfg = None /\
                          dict_get "port" cfg = None /\
                          dict_get "proxyUserName" cfg = None /\
                          dict_get "proxyPassword" cfg = None
                   end).
  { subst cfg. destruct proxy_config as [[|kv pc]|]; cbv beta iota.
    - destruct (opt_truthy remark); repeat split; reflexivity.
    - generalize (dict_get "username" (kv :: pc)),
        (dict_get "password" (kv :: pc)),
        (Api.opt_get "type" (kv :: pc) (JStr "socks5")),
        (Api.opt_get "host" (kv :: pc) JNull),
        (Api.opt_get "port" (kv :: pc) JNull).
      intros u p ty h po.
      destruct u, p, (opt_truthy remark); repeat split; reflexivity.
    - destruct (opt_truthy remark); repeat split; reflexivity. }
  destruct Hfp as (Hhas & Htr & Hn & Hpl & Hf & Hproxy).
  unfold bind, Api.create_browser. rewrite Hhas.
  destruct (request_total E self "/browser/update" (Some (JObj cfg)) w)
    as (j & logs & Hr & _).
  exists cfg, logs. rewrite Hr. unfold payload_of. rewrite Htr.
  split.
  { unfold lift. simpl. split_py; reflexivity. }
  repeat (split; [assumption|]). exact Hproxy.
Qed.

(** * Further facts about the connector *)

Lemma check_connection_posts_health (E : env)
    (self : Connector.BitBrowserConnector) (w w1 : world) (ok : json) :
  Connector.check_connection E self w = (Ret ok, w1) ->
  endpoints (trace w1) = (endpoints (trace w) ++ ["/health"])%list.
Proof.
  intros H.
  pose proof (run_op_endpoints E (Connector.api self) OpHealthCheck w) as Hp.
  simpl in Hp. unfold Connector.check_connection in H. rewrite H in Hp.
  exact Hp.
Qed.

Lemma api_open_posts (E : env) (self : BitBrowserAPI) (browser_id : string)
    (args : option (list string)) (queue : bool) (new_page_url : option string)
    (w : world) :
  endpoints (trace (Api.open_browser E self browser_id args queue new_page_url w).2)
  = (endpoints (trace w) ++ ["/browser/open"])%list.
Proof.
  exact (run_op_endpoints E self
           (OpOpen browser_id args queue new_page_url) w).
Qed.

(** X8: when the health check does not come back truthy, [open_browser]
    returns None after that single request: the window is not opened and
    Playwright is not started. *)
Theorem open_browser_stops_on_failed_health_check (E : env)
    (self : Connector.BitBrowserConnector) (browser_id : string)
    (headless : bool) (args : option (list string)) (w w1 : world) (ok : json) :
  Connector.check_connection E self w = (Ret ok, w1) ->
  truthy ok = false ->
  Connector.open_browser E self browser_id headless args w
  = (Ret (None, self), emit (ELog ERROR "无法连接到比特浏览器API") w1) /\
  endpoints (trace (Connector.open_browser E self browser_id headless args w).2)
  = (endpoints (trace w) ++ ["/health"])%list.
Proof.
  intros Hcheck Hok.
  assert (Heq : Connector.open_browser E self browser_id headless args w
                = (Ret (None, self), emit (ELog ERROR "无法连接到比特浏览器API") w1)).
  { unfold Connector.open_browser.
    rewrite (bind_ret_eq _ _ _ _ _ Hcheck). rewrite Hok. reflexivity. }
  split; [exact Heq|]. rewrite Heq. simpl.
  rewrite endpoints_app. simpl. rewrite app_nil_r.
  apply (check_connection_posts_health E self w w1 ok Hcheck).
Qed.

Lemma open_browser_stops_on_failed_health_check_witness :
  truthy (JBool false) = false /\
  endpoints
    (trace (Connector.open_browser
              (Examples.env_answering (ConnectionRefused "connection refused"))
              Examples.connector0 "w1" false None Examples.w0).2)
  = ["/health"].
Proof.
  split; [reflexivity|].
  apply (open_browser_stops_on_failed_health_check
           (Examples.env_answering (ConnectionRefused "connection refused"))
           Examples.connector0 "w1" false None Examples.w0 _ (JBool false)
           eq_refl eq_refl).
Defined.

(** X9: when the window was opened but the answer carries no usable
    [ws] endpoint, [open_browser] returns None without starting
    Playwright and without asking the service to close the window: the
    only requests are the health check and the open. *)
Theorem open_browser_without_endpoint_leaves_window (E : env)
    (self : Connector.BitBrowserConnector) (browser_id : string)
    (headless : bool) (args : option (list string)) (w w1 w2 : world)
    (ok open_result ws : json) :
  Connector.check_connection E self w = (Ret ok, w1) ->
  truthy ok = true ->
  Api.open_browser E (Connector.api self) browser_id
    (Some (let l := match args with Some ((_ :: _) as l) => l | _ => [] end in
           if headless then (l ++ ["--headless"])%list else l))
    true None w1 = (Ret open_result, w2) ->
  truthy open_result = true ->
  py_get open_result "ws" JNull = Ret ws ->
  truthy ws = false ->
  Connector.open_browser E self browser_id headless args w
  = (Ret (None, self), emit (ELog ERROR "未获取到WebSocket连接地址") w2) /\
  endpoints (trace (Connector.open_browser E self browser_id headless args w).2)
  = (endpoints (trace w) ++ ["/health"; "/browser/open"])%list.
Proof.
  intros Hcheck Hok Hopen Hres Hws Hwsf.
  assert (Heq : Connector.open_browser E self browser_id headless args w
                = (Ret (None, self),
                   emit (ELog ERROR "未获取到WebSocket连接地址") w2)).
  { unfold Connector.open_browser.
    rewrite (bind_ret_eq _ _ _ _ _ Hcheck). rewrite Hok. cbn [negb].
    rewrite (bind_ret_eq _ _ _ _ _ Hopen). rewrite Hres. cbn [negb].
    unfold lift at 1. unfold bind at 1. rewrite Hws. rewrite Hwsf. reflexivity. }
  split; [exact Heq|]. rewrite Heq. simpl.
  rewrite endpoints_app. simpl. rewrite app_nil_r.
  assert (Hp := f_equal (fun r => endpoints (trace r.2)) Hopen).
  cbv beta in Hp. rewrite api_open_posts in Hp. cbn [snd] in Hp.
  rewrite <- Hp.
  rewrite (check_connection_posts_health E self w w1 ok Hcheck).
  rewrite <- app_assoc. reflexivity.
Qed.

Lemma open_browser_without_endpoint_leaves_window_witness :
  truthy (JObj [("http", JStr "127.0.0.1:9222")]) = true /\
  endpoints
    (trace (Connector.open_browser
              (Examples.env_opening (JObj [("http", JStr "127.0.0.1:9222")])
                 (Raise (Exn PlaywrightError "unused")) (fun _ => Absent))
              Examples.connector0 "w1" false None Examples.w0).2)
  = ["/health"; "/browser/open"].
Proof.
  split; [reflexivity|].
  apply (open_browser_without_endpoint_leaves_window
           (Examples.env_opening (JObj [("http", JStr "127.0.0.1:9222")])
              (Raise (Exn PlaywrightError "unused")) (fun _ => Absent))
           Examples.connector0 "w1" false None Examples.w0 _ _
           (JBool true) (JObj [("http", JStr "127.0.0.1:9222")]) JNull
           eq_refl eq_refl eq_refl eq_refl eq_refl eq_refl).
Defined.

(** X10: when the health check passes, the open returns a [ws] endpoint,
    Playwright starts and the attach succeeds, [open_browser] returns the
    attached handle and records the window id as the connector's current
    one; no close request is sent. *)
Theorem open_browser_records_current_window (E : env)
    (self : Connector.BitBrowserConnector) (browser_id : string)
    (headless : bool) (args : option (list string)) (w w1 w2 : world)
    (ok open_result ws : json) (b : browser) :
  Connector.check_connection E self w = (Ret ok, w1) ->
  truthy ok = true ->
  Api.open_browser E (Connector.api self) browser_id
    (Some (let l := match args with Some ((_ :: _) as l) => l | _ => [] end in
           if headless then (l ++ ["--headless"])%list else l))
    true None w1 = (Ret open_result, w2) ->
  truthy open_result = true ->
  py_get open_result "ws" JNull = Ret ws ->
  truthy ws = true ->
  let w3 := emit (ELog INFO ("成功打开浏览器窗口: " +:+ browser_id)) w2 in
  playwright_start E (trace w3) = None ->
  connect_over_cdp E (trace (emit EPlaywrightStart w3)) ws = Ret b ->
  Connector.open_browser E self browser_id headless args w
  = (Ret (Some b,
          Connector.MkConnector (Connector.api self)
            (Connector.bit_browser_url self) (Some browser_id)),
     emit (ELog INFO "成功通过Playwright连接到比特浏览器")
       (emit (EConnectCDP ws) (emit EPlaywrightStart w3))) /\
  endpoints (trace (Connector.open_browser E self browser_id headless args w).2)
  = (endpoints (trace w) ++ ["/health"; "/browser/open"])%list.
Proof.
  intros Hcheck Hok Hopen Hres Hws Hwst w3 Hstart Hattach.
  assert (Heq : Connector.open_browser E self browser_id headless args w
                = (Ret (Some b,
                        Connector.MkConnector (Connector.api self)
                          (Connector.bit_browser_url self) (Some browser_id)),
                   emit (ELog INFO "成功通过Playwright连接到比特浏览器")
                     (emit (EConnectCDP ws) (emit EPlaywrightStart w3)))).
  { unfold Connector.open_browser.
    rewrite (bind_ret_eq _ _ _ _ _ Hcheck). rewrite Hok. cbn [negb].
    rewrite (bind_ret_eq _ _ _ _ _ Hopen). rewrite Hres. cbn [negb].
    unfold lift at 1. unfold bind at 1. rewrite Hws. rewrite Hwst. cbn [negb].
    rewrite (bind_ret_eq _ _ _ _ _ (log_eq _ _ _)). fold w3.
    rewrite (bind_ret_eq _ _ _ _ _ (start_ok_eq E w3 Hstart)).
    assert (Hc : Playwright.connect E ws (emit EPlaywrightStart w3)
                 = (Ret b, emit (EConnectCDP ws) (emit EPlaywrightStart w3))).
    { rewrite connect_eq, Hattach. reflexivity. }
    apply try_except_ret_eq.
    rewrite (bind_ret_eq _ _ _ _ _ Hc).
    rewrite (bind_ret_eq _ _ _ _ _ (log_eq _ _ _)). reflexivity. }
  split; [exact Heq|]. rewrite Heq. subst w3. simpl.
  rewrite !endpoints_app. simpl. rewrite !app_nil_r.
  assert (Hp := f_equal (fun r => endpoints (trace r.2)) Hopen).
  cbv beta in Hp. rewrite api_open_posts in Hp. cbn [snd] in Hp.
  rewrite <- Hp.
  rewrite (check_connection_posts_health E self w w1 ok Hcheck).
  rewrite <- app_assoc. reflexivity.
Qed.

Lemma open_browser_records_current_window_witness :
  truthy (JBool true) = true /\
  (Connector.open_browser
     (Examples.env_remote (Ret (Browser 1 [0%nat])) (fun _ => Absent))
     Examples.connector0 "w1" true None Examples.w0).1
  = Ret (Some (Browser 1 [0%nat]),
         Connector.MkConnector Examples.api0 "http://127.0.0.1:54345" (Some "w1")).
Proof.
  split; [reflexivity|].
  destruct (open_browser_records_current_window
              (Examples.env_remote (Ret (Browser 1 [0%nat])) (fun _ => Absent))
              Examples.connector0 "w1" true None Examples.w0 _ _ _ _ _
              (Browser 1 [0%nat])
              eq_refl eq_refl eq_refl eq_refl eq_refl eq_refl eq_refl eq_refl)
    as [H _].
  rewrite H. reflexivity.
Defined.

Lemma bind_world_raise {A B : Type} (m : M A) (k : A -> M B) (w : world) :
  (forall a, (k a (m w).2).2 = (m w).2) -> (bind m k w).2 = (m w).2.
Proof.
  intros H. unfold bind.
  destruct (m w) as [[a|e] w'] eqn:Hm; simpl in *; [apply H|reflexivity].
Qed.

Lemma api_open_trace (E : env) (self : BitBrowserAPI) (browser_id : string)
    (args : list string) (w : world) :
  exists logs,
    trace (Api.open_browser E self browser_id (Some args) true None w).2
    = (trace w ++ EPost (base_url self) "/browser/open"
                    (JObj [("id", JStr browser_id);
                           ("args", JArr (map JStr args));
                           ("queue", JBool true)]) :: logs)%list.
Proof.
  unfold Api.open_browser.
  assert (Ha : match args with [] => [] | _ :: _ => args end = args)
    by (destruct args; reflexivity).
  rewrite Ha.
  destruct (request_total E self "/browser/open"
              (Some (JObj [("id", JStr browser_id);
                           ("args", JArr (map JStr args));
                           ("queue", JBool true)])) w)
    as (j & logs & Hr & _).
  exists logs. unfold bind. rewrite Hr. unfold Api.data_if_success, bind, lift, ret.
  simpl. split_py; reflexivity.
Qed.

(** X11: once the health check has passed, the next request of
    [open_browser] is the window open, queued, carrying the caller's
    arguments followed by "--headless" exactly when [headless] is set. *)
Theorem open_browser_forwards_headless (E : env)
    (self : Connector.BitBrowserConnector) (browser_id : string)
    (headless : bool) (args : option (list string)) (w w1 : world) (ok : json) :
  Connector.check_connection E self w = (Ret ok, w1) ->
  truthy ok = true ->
  exists rest,
    trace (Connector.open_browser E self browser_id headless args w).2
    = (trace w1
       ++ EPost (base_url (Connector.api self)) "/browser/open"
            (JObj [("id", JStr browser_id);
                   ("args",
                    JArr (map JStr
                            (match args with Some l => l | None => [] end
                             ++ if headless then ["--headless"] else [])));
                   ("queue", JBool true)]) :: rest)%list.
Proof.
  intros Hcheck Hok. unfold Connector.open_browser.
  rewrite (bind_ret_eq _ _ _ _ _ Hcheck). rewrite Hok. cbn [negb].
  set (la := if headless then _ else _).
  assert (Hla : la = (match args with Some l => l | None => [] end
                      ++ if headless then ["--headless"] else [])%list).
  { subst la. destruct args as [[|a l]|], headless; simpl;
      rewrite ?app_nil_r; reflexivity. }
  rewrite <- Hla. clearbody la.
  destruct (api_open_trace E (Connector.api self) browser_id la w1) as [logs Ht].
  unfold bind at 1.
  destruct (Api.open_browser E (Connector.api self) browser_id (Some la) true
              None w1) as [[r|e] w2]; cbn [snd] in Ht;
    [|exists logs; exact Ht].
  destruct (truthy r); cbn [negb].
  2:{ exists (logs ++ [ELog ERROR ("打开浏览器窗口失败: " +:+ browser_id)])%list.
      simpl. rewrite Ht, <- app_assoc. reflexivity. }
  unfold lift at 1. unfold bind at 1.
  destruct (py_get r "ws" JNull) as [ws|e]; [|exists logs; exact Ht].
  destruct (truthy ws); cbn [negb].
  2:{ exists (logs ++ [ELog ERROR "未获取到WebSocket连接地址"])%list.
      simpl. rewrite Ht, <- app_assoc. reflexivity. }
  rewrite (bind_ret_eq _ _ _ _ _ (log_eq _ _ _)).
  set (w3 := emit _ w2).
  assert (Ht3 : trace w3 = (trace w1 ++ EPost (base_url (Connector.api self))
                              "/browser/open"
                              (JObj [("id", JStr browser_id);
                                     ("args", JArr (map JStr la));
                                     ("queue", JBool true)])
                            :: logs ++ [ELog INFO ("成功打开浏览器窗口: "
                                                   +:+ browser_id)])%list).
  { subst w3. simpl. rewrite Ht, <- app_assoc. reflexivity. }
  clearbody w3.
  unfold Playwright.start, history, tell. unfold bind at 1. unfold bind at 1.
  unfold bind at 1. cbv beta iota.
  destruct (playwright_start E (trace w3)) as [e|].
  { eexists. simpl. rewrite Ht3, <- app_assoc. simpl. reflexivity. }
  unfold ret at 1. cbv beta iota.
  set (w4 := emit EPlaywrightStart w3).
  assert (Ht4 : exists pre, trace w4
                = (trace w1 ++ EPost (base_url (Connector.api self))
                     "/browser/open"
                     (JObj [("id", JStr browser_id);
                            ("args", JArr (map JStr la));
                            ("queue", JBool true)]) :: pre)%list).
  { eexists. subst w4. simpl. rewrite Ht3, <- app_assoc. simpl. reflexivity. }
  clearbody w4. destruct Ht4 as [pre Ht4].
  unfold try_except.
  assert (Hc := connect_eq E ws w4).
  destruct (connect_over_cdp E (trace w4) ws) as [b|e].
  - rewrite (bind_ret_eq _ _ _ _ _ Hc).
    rewrite (bind_ret_eq _ _ _ _ _ (log_eq _ _ _)). unfold ret.
    eexists. simpl. rewrite Ht4, <- !app_assoc. simpl. reflexivity.
  - rewrite (bind_raise_eq _ _ _ _ _ Hc).
    destruct (is_Exception (exn_cls e)).
    + rewrite (bind_ret_eq _ _ _ _ _ (log_eq _ _ _)).
      rewrite bind_world_raise by reflexivity.
      destruct (close_request_issued E (Connector.api self) browser_id
                  (emit (ELog ERROR ("连接Playwright到比特浏览器失败: "
                                     +:+ exn_msg e))
                     (emit (EConnectCDP ws) w4))) as [logs' Hcl].
      rewrite Hcl. eexists. simpl. rewrite Ht4, <- !app_assoc. simpl.
      reflexivity.
    + eexists. simpl. rewrite Ht4, <- !app_assoc. simpl. reflexivity.
Qed.

Lemma open_browser_forwards_headless_witness :
  truthy (JBool true) = true /\
  exists rest,
    trace (Connector.open_browser
             (Examples.env_remote (Ret (Browser 1 [0%nat])) (fun _ => Absent))
             Examples.connector0 "w1" true (Some ["--mute-audio"])
             Examples.w0).2
    = (EPost "http://127.0.0.1:54345" "/health" (JObj [])
       :: EPost "http://127.0.0.1:54345" "/browser/open"
            (JObj [("id", JStr "w1");
                   ("args", JArr [JStr "--mute-audio"; JStr "--headless"]);
                   ("queue", JBool true)]) :: rest).
Proof.
  split; [reflexivity|].
  apply (open_browser_forwards_headless
           (Examples.env_remote (Ret (Browser 1 [0%nat])) (fun _ => Absent))
           Examples.connector0 "w1" true (Some ["--mute-audio"]) Examples.w0
           _ (JBool true) eq_refl eq_refl).
Defined.

(** X12: [close_browser] of the connector closes the given window, or
    the current one when none is given: it sleeps for [delay], then
    sends the close request; when the service confirms, a window that
    was the current one is forgotten, and when it does not, the current
    window is kept and the falsy result is returned, not raised. *)
Theorem connector_close_forgets_current_window (E : env)
    (self : Connector.BitBrowserConnector) (browser_id : option string)
    (id : string) (delay : Z) (w w' : world) (result : json) :
  (if opt_truthy browser_id then browser_id
   else Connector.current_browser_id self) = Some id ->
  str_truthy id = true ->
  Api.close_browser E (Connector.api self) id (emit (ESleep delay) w)
  = (Ret result, w') ->
  Connector.close_browser E self browser_id delay w
  = (if truthy result
     then (Ret (result,
                if Connector.str_eq_opt id (Connector.current_browser_id self)
                then Connector.MkConnector (Connector.api self)
                       (Connector.bit_browser_url self) None
                else self),
           emit (ELog INFO ("成功关闭浏览器窗口: " +:+ id)) w')
     else (Ret (result, self),
           emit (ELog ERROR ("关闭浏览器窗口失败: " +:+ id)) w')) /\
  exists logs,
    trace w'
    = (trace w ++ ESleep delay
         :: EPost (base_url (Connector.api self)) "/browser/close"
              (JObj [("id", JStr id)]) :: logs)%list.
Proof.
  intros Htarget Hid Hclose. split.
  - unfold Connector.close_browser. rewrite Htarget, Hid.
    unfold tell at 1. unfold bind at 1. cbv beta iota.
    rewrite (bind_ret_eq _ _ _ _ _ Hclose).
    destruct (truthy result); reflexivity.
  - destruct (close_request_issued E (Connector.api self) id
                (emit (ESleep delay) w)) as [logs Hl].
    rewrite Hclose in Hl. simpl in Hl. exists logs. rewrite Hl.
    rewrite <- app_assoc. reflexivity.
Qed.

Lemma connector_close_forgets_current_window_witness :
  str_truthy "w1" = true /\
  (Connector.close_browser
     (Examples.env_remote (Ret (Browser 1 [0%nat])) (fun _ => Absent))
     (Connector.MkConnector Examples.api0 "http://127.0.0.1:54345" (Some "w1"))
     None 5 Examples.w0).1
  = Ret (JBool true, Examples.connector0).
Proof.
  split; [reflexivity|].
  destruct (connector_close_forgets_current_window
              (Examples.env_remote (Ret (Browser 1 [0%nat])) (fun _ => Absent))
              (Connector.MkConnector Examples.api0 "http://127.0.0.1:54345"
                 (Some "w1"))
              None "w1" 5 Examples.w0 _ (JBool true) eq_refl eq_refl eq_refl)
    as [H _].
  rewrite H. reflexivity.
Defined.

Lemma create_context_eq (E : env) (self : Connector.BitBrowserConnector)
    (b : browser) (account_file : option string) (cs : list cookie) (w : world) :
  Playwright.load_state E
    (match account_file with
     | Some f => if str_truthy f then Playwright.SSPath f else Playwright.SSNone
     | None => Playwright.SSNone
     end) = Ret cs ->
  Connector.create_context_from_browser E self b account_file None w
  = (Ret (length (contexts w)),
     World (trace w ++ [ENewContext (length (contexts w));
                        EInitScript (length (contexts w))])
       (contexts w ++ [Context (Playwright.store_cookies ∅ cs) 1])
       (_default_api w) (next_oid w)).
Proof.
  intros Hload. unfold Connector.create_context_from_browser.
  set (ss := match account_file with Some f => _ | None => _ end) in Hload.
  assert (Hnc : (match account_file with
                 | Some f =>
                     if str_truthy f
                     then Playwright.new_context E b (Playwright.SSPath f)
                     else Playwright.new_context E b Playwright.SSNone
                 | None => Playwright.new_context E b Playwright.SSNone
                 end) = Playwright.new_context E b ss).
  { subst ss. destruct account_file as [f|]; [destruct (str_truthy f)|];
      reflexivity. }
  rewrite Hnc.
  unfold Playwright.new_context, set_init_script, Playwright.update_context,
    bind, lift, tell, ret. rewrite Hload. simpl.
  rewrite lookup_app_r by lia. rewrite Nat.sub_diag. simpl.
  rewrite insert_app_r_alt by lia. rewrite Nat.sub_diag. simpl.
  unfold emit. simpl. rewrite <- app_assoc. reflexivity.
Qed.

(** X13: when the attached browser has no context, the session gets a
    newly created one: it is appended to the heap, seeded with the
    cookies of the account file, and has the initialization script added
    exactly once. *)
Theorem no_existing_context_creates_initialised_one (E : env)
    (self self' : Connector.BitBrowserConnector) (browser_id : string)
    (headless : bool) (account_file : option string) (b : browser)
    (cs : list cookie) (w0 w : world) :
  Connector.open_browser E self browser_id headless None w0
  = (Ret (Some b, self'), w) ->
  browser_contexts b = [] ->
  Playwright.load_state E
    (match account_file with
     | Some f => if str_truthy f then Playwright.SSPath f else Playwright.SSNone
     | None => Playwright.SSNone
     end) = Ret cs ->
  exists w',
    Connector.get_or_create_browser E self browser_id headless account_file w0
    = (Ret (Some b, Some (length (contexts w)), self'), w') /\
    contexts w' = (contexts w ++ [Context (Playwright.store_cookies ∅ cs) 1])%list.
Proof.
  intros Hopen Hb Hload. eexists. split.
  - unfold Connector.get_or_create_browser.
    rewrite (bind_ret_eq _ _ _ _ _ Hopen). cbv beta iota. rewrite Hb.
    apply try_except_ret_eq.
    rewrite (bind_ret_eq _ _ _ _ _
               (create_context_eq E self' b account_file cs w Hload)).
    rewrite (bind_ret_eq _ _ _ _ _ (log_eq _ _ _)). reflexivity.
  - reflexivity.
Qed.

Lemma no_existing_context_creates_initialised_one_witness :
  browser_contexts (Browser 1 []) = [] /\
  exists w',
    Connector.get_or_create_browser
      (Examples.env_remote (Ret (Browser 1 [])) (fun _ => Examples.state_file_b))
      Examples.connector0 "w1" false (Some "cookies/douyin_a.json") Examples.w0
    = (Ret (Some (Browser 1 []), Some 0%nat,
            Connector.MkConnector Examples.api0 "http://127.0.0.1:54345"
              (Some "w1")), w') /\
    contexts w'
    = [Context (Playwright.store_cookies ∅ [Examples.cookie_b]) 1].
Proof.
  split; [reflexivity|].
  apply (no_existing_context_creates_initialised_one
           (Examples.env_remote (Ret (Browser 1 [])) (fun _ => Examples.state_file_b))
           Examples.connector0 _ "w1" false (Some "cookies/douyin_a.json")
           (Browser 1 []) [Examples.cookie_b] Examples.w0 _
           eq_refl eq_refl eq_refl).
Defined.

(** X14: the fallback of [get_or_create_browser] does not rescue an
    account file that is not JSON: on the reuse path [json.load] fails,
    the except branch creates a new context from the same file, that
    fails again, and the JSONDecodeError reaches the caller.  No close
    request is sent for the window that was opened. *)
Theorem unreadable_account_file_escapes_fallback (E : env)
    (self self' : Connector.BitBrowserConnector) (browser_id : string)
    (headless : bool) (f : string) (b : browser) (ctx : nat) (rest : list nat)
    (w0 w : world) :
  Connector.open_browser E self browser_id headless None w0
  = (Ret (Some b, self'), w) ->
  browser_contexts b = ctx :: rest ->
  str_truthy f = true ->
  read_file E f = Garbage ->
  Connector.get_or_create_browser E self browser_id headless (Some f) w0
  = (Raise (Exn JSONDecodeError "Expecting value"),
     emit (ELog ERROR "获取context失败: Expecting value，尝试创建新context")
       (emit (ELog INFO "使用比特浏览器已有的context") w)).
Proof.
  intros Hopen Hb Hf Hread. unfold Connector.get_or_create_browser.
  rewrite (bind_ret_eq _ _ _ _ _ Hopen). cbv beta iota. rewrite Hb.
  assert (Hm : Connector.merge_account_file E ctx (Some f)
                 (emit (ELog INFO "使用比特浏览器已有的context") w)
               = (Raise (Exn JSONDecodeError "Expecting value"),
                  emit (ELog INFO "使用比特浏览器已有的context") w)).
  { unfold Connector.merge_account_file. rewrite Hf, Hread. reflexivity. }
  erewrite try_except_caught_eq;
    [|rewrite (bind_ret_eq _ _ _ _ _ (log_eq _ _ _));
      apply (bind_raise_eq _ _ _ _ _ Hm)|reflexivity].
  rewrite (bind_ret_eq _ _ _ _ _ (log_eq _ _ _)).
  apply bind_raise_eq.
  unfold Connector.create_context_from_browser. rewrite Hf.
  apply bind_raise_eq.
  unfold Playwright.new_context. apply bind_raise_eq.
  unfold lift, Playwright.load_state. rewrite Hread. reflexivity.
Qed.

Lemma unreadable_account_file_escapes_fallback_witness :
  str_truthy "cookies/broken.json" = true /\
  (Connector.get_or_create_browser
     (Examples.env_remote (Ret (Browser 1 [0%nat])) (fun _ => Garbage))
     Examples.connector0 "w1" false (Some "cookies/broken.json")
     Examples.w_with_a).1
  = Raise (Exn JSONDecodeError "Expecting value").
Proof.
  split; [reflexivity|].
  rewrite (unreadable_account_file_escapes_fallback
             (Examples.env_remote (Ret (Browser 1 [0%nat])) (fun _ => Garbage))
             Examples.connector0 _ "w1" false "cookies/broken.json"
             (Browser 1 [0%nat]) 0%nat [] Examples.w_with_a _
             eq_refl eq_refl eq_refl eq_refl).
  reflexivity.
Defined.

(** X15: on the reuse path an account file that does not exist is
    skipped: the existing context is returned untouched and nothing is
    raised. *)
Theorem missing_account_file_is_skipped_on_reuse (E : env)
    (self self' : Connector.BitBrowserConnector) (browser_id : string)
    (headless : bool) (f : string) (b : browser) (ctx : nat) (rest : list nat)
    (w0 w : world) :
  Connector.open_browser E self browser_id headless None w0
  = (Ret (Some b, self'), w) ->
  browser_contexts b = ctx :: rest ->
  read_file E f = Absent ->
  Connector.get_or_create_browser E self browser_id headless (Some f) w0
  = (Ret (Some b, Some ctx, self'),
     emit (ELog INFO "使用比特浏览器已有的context") w).
Proof.
  intros Hopen Hb Hread. unfold Connector.get_or_create_browser.
  rewrite (bind_ret_eq _ _ _ _ _ Hopen). cbv beta iota. rewrite Hb.
  apply try_except_ret_eq.
  rewrite (bind_ret_eq _ _ _ _ _ (log_eq _ _ _)).
  unfold Connector.merge_account_file. rewrite Hread.
  destruct (str_truthy f); reflexivity.
Qed.

Lemma missing_account_file_is_skipped_on_reuse_witness :
  browser_contexts (Browser 1 [0%nat]) = [0%nat] /\
  (Connector.get_or_create_browser
     (Examples.env_remote (Ret (Browser 1 [0%nat])) (fun _ => Absent))
     Examples.connector0 "w1" false (Some "cookies/none.json")
     Examples.w_with_a).1
  = Ret (Some (Browser 1 [0%nat]), Some 0%nat,
         Connector.MkConnector Examples.api0 "http://127.0.0.1:54345" (Some "w1")).
Proof.
  split; [reflexivity|].
  rewrite (missing_account_file_is_skipped_on_reuse
             (Examples.env_remote (Ret (Browser 1 [0%nat])) (fun _ => Absent))
             Examples.connector0 _ "w1" false "cookies/none.json"
             (Browser 1 [0%nat]) 0%nat [] Examples.w_with_a _
             eq_refl eq_refl eq_refl).
  reflexivity.
Defined.

(** * Further facts about the helper *)

Lemma connector_close_trace (E : env) (c : Connector.BitBrowserConnector)
    (id : string) (delay : Z) (w : world) :
  str_truthy id = true ->
  exists logs,
    trace (Connector.close_browser E c (Some id) delay w).2
    = (trace w ++ ESleep delay
         :: EPost (base_url (Connector.api c)) "/browser/close"
              (JObj [("id", JStr id)]) :: logs)%list /\
    Forall is_log logs.
Proof.
  intros Hid. unfold Connector.close_browser, opt_truthy. rewrite !Hid.
  unfold Api.close_browser, bind, tell. cbv beta iota.
  destruct (request_total E (Connector.api c) "/browser/close"
              (Some (JObj [("id", JStr id)])) (emit (ESleep delay) w))
    as (j & logs & Hr & Hlogs).
  rewrite Hr. unfold lift, log, tell, ret. simpl.
  destruct (py_get j "success" (JBool false)) as [ok|e]; simpl.
  - destruct (truthy ok); simpl; eexists;
      (split; [rewrite <- !app_assoc; simpl; reflexivity|]);
      apply Forall_app; split; try exact Hlogs; repeat constructor.
  - exists logs. split; [rewrite <- !app_assoc; reflexivity|exact Hlogs].
Qed.

(** X16: closing a remote session through the helper waits twice, for
    [delay] and then for the connector's own five seconds, before the
    close request goes out, to the address of the process-wide client;
    apart from log lines nothing else happens, in particular the engine
    handle is not closed. *)
Theorem helper_close_remote_waits_twice (C : Conf.conf) (E : env)
    (b : option browser) (browser_type : option string) (id : string)
    (delay : Z) (w : world) (a : BitBrowserAPI) :
  match browser_type with Some t => t | None => Conf.DEFAULT_BROWSER_TYPE C end
  = "bitbrowser" ->
  str_truthy id = true ->
  _default_api w = Some a ->
  exists logs,
    trace (Helper.close_browser C E b browser_type (Some id) delay w).2
    = (trace w ++ ESleep delay :: ESleep 5
         :: EPost (base_url a) "/browser/close" (JObj [("id", JStr id)])
         :: logs)%list /\
    Forall is_log logs.
Proof.
  intros Hty Hid Ha. unfold Helper.close_browser. rewrite Hty. simpl String.eqb.
  cbv iota. unfold opt_truthy. rewrite Hid.
  unfold tell at 1. unfold bind at 1. cbv beta iota.
  rewrite (bind_ret_eq _ _ _ _ _
             (connector_init_reuses a (Conf.BIT_BROWSER_URL C)
                (emit (ESleep delay) w) Ha)).
  rewrite bind_world_raise by reflexivity.
  destruct (connector_close_trace E
              (Connector.MkConnector a (Conf.BIT_BROWSER_URL C) None) id 5
              (emit (ESleep delay) w) Hid) as (logs & Ht & Hlogs).
  exists logs. split; [|exact Hlogs].
  rewrite Ht. simpl. rewrite <- app_assoc. reflexivity.
Qed.

Lemma helper_close_remote_waits_twice_witness :
  str_truthy "w1" = true /\
  exists logs,
    trace (Helper.close_browser Conf.example
             (Examples.env_answering (Timeout "timed out"))
             None (Some "bitbrowser") (Some "w1") 2
             (World [] [] (Some Examples.api0) 1)).2
    = ([] ++ ESleep 2 :: ESleep 5
         :: EPost "http://127.0.0.1:54345" "/browser/close"
              (JObj [("id", JStr "w1")]) :: logs)%list /\
    Forall is_log logs.
Proof.
  split; [reflexivity|].
  apply (helper_close_remote_waits_twice Conf.example
           (Examples.env_answering (Timeout "timed out"))
           None (Some "bitbrowser") "w1" 2
           (World [] [] (Some Examples.api0) 1) Examples.api0);
    reflexivity.
Defined.

Lemma connector_init_total (url : string) (w : world) :
  exists c w', Connector.init url w = (Ret c, w').
Proof.
  unfold Connector.init, bind, Api.get_bitbrowser_api, Api.init, ret.
  destruct (_default_api w); do 2 eexists; reflexivity.
Qed.

(** X17: on the remote backend [create_browser_and_context] never
    returns without a session: when [open_browser], called on the
    connector it has just built, gives no handle, it raises
    Exception("无法创建比特浏览器实例"). *)
Theorem helper_raises_when_open_fails (C : Conf.conf) (E : env)
    (browser_type : option string) (id : string) (account_file : option string)
    (headless : option bool) (w w2 w3 : world)
    (c c' : Connector.BitBrowserConnector) :
  match browser_type with Some t => t | None => Conf.DEFAULT_BROWSER_TYPE C end
  = "bitbrowser" ->
  str_truthy id = true ->
  let h := match headless with
           | Some h => h
           | None => Conf.LOCAL_CHROME_HEADLESS C
           end in
  Connector.init (Conf.BIT_BROWSER_URL C)
    (emit (ELog INFO ("创建浏览器: type=" +:+ "bitbrowser" +:+ ", headless="
                      +:+ Helper.py_bool_str h)) w)
  = (Ret c, w2) ->
  Connector.open_browser E c id h None w2 = (Ret (None, c'), w3) ->
  Helper.create_browser_and_context C E browser_type (Some id) account_file
    headless w
  = (Raise (Exn PlainException "无法创建比特浏览器实例"), w3).
Proof.
  intros Hty Hid h Hinit Hopen. unfold Helper.create_browser_and_context.
  rewrite Hty. fold h. simpl String.eqb. cbv iota. rewrite Hid.
  rewrite (bind_ret_eq _ _ _ _ _ (log_eq _ _ _)).
  rewrite (bind_ret_eq _ _ _ _ _ Hinit).
  unfold Connector.get_or_create_browser.
  unfold bind at 1.
  rewrite (bind_ret_eq _ _ _ _ _ Hopen). reflexivity.
Qed.

Lemma helper_raises_when_open_fails_witness :
  str_truthy "w1" = true /\
  (Helper.create_browser_and_context Conf.example
     (Examples.env_answering (ConnectionRefused "connection refused"))
     (Some "bitbrowser") (Some "w1") None None Examples.w0).1
  = Raise (Exn PlainException "无法创建比特浏览器实例").
Proof.
  split; [reflexivity|].
  rewrite (helper_raises_when_open_fails Conf.example
             (Examples.env_answering (ConnectionRefused "connection refused"))
             (Some "bitbrowser") "w1" None None Examples.w0 _ _ _ _
             eq_refl eq_refl eq_refl eq_refl).
  reflexivity.
Defined.

(** X18: an account stored with the remote backend but without a window
    id cannot get a session: [create_browser_for_account] raises the
    ValueError of the configuration check, after the creation log line
    and before anything is contacted. *)
Theorem account_without_window_id_is_rejected (C : Conf.conf) (E : env)
    (account_id : Z) (account_file : option string) (headless : option bool)
    (rows : list user_row) (row : user_row) (w : world) :
  database E = DbTable rows ->
  find (fun r => Z.eqb (row_id r) account_id) rows = Some row ->
  row_browser_type row = Some "bitbrowser" ->
  opt_truthy (row_bitbrowser_id row) = false ->
  exists msg,
    Helper.create_browser_for_account C E account_id account_file headless w
    = (Raise (Exn ValueError "比特浏览器模式需要提供 browser_id 参数"),
       emit (ELog INFO msg) w).
Proof.
  intros Hdb Hfind Hty Hid.
  unfold Helper.create_browser_for_account.
  assert (Hcfg : Helper.get_account_browser_config C E account_id w
                 = (Ret (BrowserConfig "bitbrowser" (row_bitbrowser_id row)), w)).
  { unfold Helper.get_account_browser_config, try_except, bind, lift, fetchone.
    rewrite Hdb, Hfind. simpl. rewrite Hty. reflexivity. }
  rewrite (bind_ret_eq _ _ _ _ _ Hcfg). simpl cfg_browser_type.
  simpl cfg_bitbrowser_id. eexists. apply bind_raise_eq.
  unfold Helper.create_browser_and_context. simpl String.eqb. cbv iota.
  rewrite (bind_ret_eq _ _ _ _ _ (log_eq _ _ _)).
  destruct (row_bitbrowser_id row) as [id|]; [|reflexivity].
  simpl in Hid. rewrite Hid. reflexivity.
Qed.

Lemma account_without_window_id_is_rejected_witness :
  opt_truthy None = false /\
  exists msg,
    Helper.create_browser_for_account Conf.example
      {| http := fun _ _ _ _ => Timeout "timed out";
         playwright_start := fun _ => None;
         connect_over_cdp := fun _ _ => Raise (Exn PlaywrightError "unused");
         launch := fun _ _ _ => Raise (Exn PlaywrightError "unused");
         browser_close := fun _ _ => None;
         read_file := fun _ => Absent;
         database := DbTable [UserRow 7 "douyin_a.json" (Some "bitbrowser") None] |}
      7 None None Examples.w0
    = (Raise (Exn ValueError "比特浏览器模式需要提供 browser_id 参数"),
       emit (ELog INFO msg) Examples.w0).
Proof.
  split; [reflexivity|].
  apply (account_without_window_id_is_rejected Conf.example _ 7 None None
           [UserRow 7 "douyin_a.json" (Some "bitbrowser") None]
           (UserRow 7 "douyin_a.json" (Some "bitbrowser") None) Examples.w0);
    reflexivity.
Defined.

(** X19: a scope entered on the local backend closes, on exit, the very
    browser it launched, after the default two-second wait; a scope that
    was never entered does nothing on exit. *)
Theorem scope_closes_what_it_opened (C : Conf.conf) (E : env)
    (self self' : Helper.BrowserContextManager) (b : browser) (ctx : nat)
    (w w1 w2 : world) :
  match Helper.scope_browser_type self with
  | Some t => t
  | None => Conf.DEFAULT_BROWSER_TYPE C
  end <> "bitbrowser" ->
  Helper.aenter C E self w = (Ret (b, ctx, self'), w1) ->
  Helper.aexit C E self' w2
  = (match browser_close E (trace w2 ++ [ESleep 2]) (browser_oid b) with
     | Some e => Raise e
     | None => Ret tt
     end,
     emit (EBrowserClose (browser_oid b)) (emit (ESleep 2) w2)) /\
  (Helper.scope_browser self = None ->
   Helper.aexit C E self w2 = (Ret tt, w2)).
Proof.
  intros Hty Henter. split.
  - unfold Helper.aenter, bind in Henter.
    destruct (Helper.create_browser_and_context C E _ _ _ _ w) as [[[b0 c0]|e] w0];
      [|discriminate].
    unfold ret in Henter. simpl in Henter. injection Henter as <- <- <- <-.
    unfold Helper.aexit. simpl Helper.scope_browser.
    cbv iota. unfold Helper.close_browser. simpl Helper.scope_browser_type.
    apply String.eqb_neq in Hty.
    unfold Playwright.close, bind, tell, history. simpl. rewrite Hty. simpl.
    destruct (browser_close E _ _); reflexivity.
  - intros Hnone. unfold Helper.aexit. rewrite Hnone. reflexivity.
Qed.

Lemma scope_closes_what_it_opened_witness :
  "playwright" <> "bitbrowser" /\
  exists w1,
    Helper.aenter Conf.example
      (Examples.env_remote (Raise (Exn PlaywrightError "unused")) (fun _ => Absent))
      (Helper.MkScope None None None None None None) Examples.w0
    = (Ret (Browser 2 [], 0%nat,
            Helper.MkScope None None None None (Some (Browser 2 [])) (Some 0%nat)),
       w1) /\
    Helper.aexit Conf.example
      (Examples.env_remote (Raise (Exn PlaywrightError "unused")) (fun _ => Absent))
      (Helper.MkScope None None None None (Some (Browser 2 [])) (Some 0%nat)) w1
    = (Ret tt, emit (EBrowserClose 2) (emit (ESleep 2) w1)).
Proof.
  split; [discriminate|].
  eexists. split; [reflexivity|].
  refine (proj1 (scope_closes_what_it_opened Conf.example
           (Examples.env_remote (Raise (Exn PlaywrightError "unused"))
              (fun _ => Absent))
           (Helper.MkScope None None None None None None) _ (Browser 2 []) 0%nat
           Examples.w0 _ _ ltac:(discriminate) eq_refl)).
Defined.

Lemma or_default_truthy (o : option string) (default : string) :
  str_truthy default = true -> str_truthy (or_default o default) = true.
Proof.
  intros H. unfold or_default. destruct o as [s|]; [|exact H].
  destruct (str_truthy s) eqn:Hs; [exact Hs|exact H].
Qed.

(** X20: as long as a failing lookup fails with an Exception, both
    resolvers always return a configuration, never raise, and the
    backend name they return is never empty (given a non-empty
    configured default): a NULL or empty [browser_type] column is
    replaced by the default. *)
Theorem resolvers_always_name_a_backend (C : Conf.conf) (E : env)
    (account_id : Z) (file_path : string) (w : world) :
  (forall e, database E = DbFails e -> is_Exception (exn_cls e) = true) ->
  str_truthy (Conf.DEFAULT_BROWSER_TYPE C) = true ->
  (exists cfg w',
      Helper.get_account_browser_config C E account_id w = (Ret cfg, w') /\
      str_truthy (cfg_browser_type cfg) = true) /\
  (exists cfg w',
      PostVideo.get_account_browser_config_by_filepath E file_path w
      = (Ret cfg, w') /\
      str_truthy (cfg_browser_type cfg) = true).
Proof.
  intros Hdb Hdef. split.
  - unfold Helper.get_account_browser_config, try_except, bind, lift, fetchone.
    destruct (database E) as [e|rows] eqn:Hd; simpl.
    + rewrite (Hdb e eq_refl). do 2 eexists. split; [reflexivity|exact Hdef].
    + destruct (find _ rows) as [row|]; do 2 eexists;
        (split; [reflexivity|]); simpl;
        [apply or_default_truthy; exact Hdef|exact Hdef].
  - unfold PostVideo.get_account_browser_config_by_filepath, try_except, bind,
      lift, fetchone.
    destruct (database E) as [e|rows] eqn:Hd; simpl.
    + rewrite (Hdb e eq_refl). do 2 eexists. split; reflexivity.
    + destruct (find _ rows) as [row|]; do 2 eexists;
        (split; [reflexivity|]); simpl;
        [apply or_default_truthy|]; reflexivity.
Qed.

Lemma resolvers_always_name_a_backend_witness :
  str_truthy (Conf.DEFAULT_BROWSER_TYPE Conf.example) = true /\
  exists cfg w',
    Helper.get_account_browser_config Conf.example
      {| http := fun _ _ _ _ => Timeout "timed out";
         playwright_start := fun _ => None;
         connect_over_cdp := fun _ _ => Raise (Exn PlaywrightError "unused");
         launch := fun _ _ _ => Raise (Exn PlaywrightError "unused");
         browser_close := fun _ _ => None;
         read_file := fun _ => Absent;
         database := DbTable [UserRow 7 "douyin_a.json" (Some "") (Some "w1")] |}
      7 Examples.w0 = (Ret cfg, w') /\
    str_truthy (cfg_browser_type cfg) = true.
Proof.
  split; [reflexivity|].
  refine (proj1 (resolvers_always_name_a_backend Conf.example _ 7 "douyin_a.json"
                   Examples.w0 _ eq_refl)).
  intros e He. discriminate He.
Defined.

(** X26: on the local backend a session returned by
    [BrowserManager.create_browser] has a context that is new (appended
    to the heap of contexts) and has the initialization script added
    exactly once. *)
Theorem local_backend_context_is_new_and_initialised (E : env)
    (mgr : Connector.BrowserManager) (browser_id account_file : option string)
    (w w' : world) (b : browser) (ctx : nat) :
  Connector.browser_type mgr <> "bitbrowser" ->
  Connector.create_browser E mgr browser_id account_file w
  = (Ret (Some b, Some ctx), w') ->
  ctx = length (contexts w) /\
  exists jar, contexts w' = (contexts w ++ [Context jar 1])%list.
Proof.
  exact (local_session_initialised_once E mgr browser_id account_file w w' b ctx).
Qed.

Lemma local_backend_context_is_new_and_initialised_witness :
  "playwright" <> "bitbrowser" /\
  exists jar,
    contexts (Connector.create_browser
                (Examples.env_remote (Raise (Exn PlaywrightError "unused"))
                   (fun _ => Examples.state_file_b))
                (Connector.MkManager "playwright" "http://127.0.0.1:2000" None
                   false None)
                None (Some "cookies/douyin_a.json") Examples.w_with_a).2
    = (contexts Examples.w_with_a ++ [Context jar 1])%list.
Proof.
  split; [discriminate|].
  refine (proj2 (local_backend_context_is_new_and_initialised
                   (Examples.env_remote (Raise (Exn PlaywrightError "unused"))
                      (fun _ => Examples.state_file_b))
                   (Connector.MkManager "playwright" "http://127.0.0.1:2000" None
                      false None)
                   None (Some "cookies/douyin_a.json") Examples.w_with_a _
                   (Browser 2 []) 1%nat ltac:(discriminate) eq_refl)).
Defined.

(** * The schema migration *)
Section MigrationFacts.
Import Migration.

Lemma listed_app (name : string) (a b : list string) :
  listed name (a ++ b) = listed name a || listed name b.
Proof. unfold listed. apply existsb_app. Qed.

Lemma listed_same_column (name : string) (cols : list string) :
  listed name cols = true -> existsb (same_column name) cols = true.
Proof.
  unfold listed. induction cols as [|c cols IH]; simpl; [discriminate|].
  destruct (String.eqb_spec name c) as [->|_]; simpl.
  - intros _. unfold same_column. rewrite String.eqb_refl. reflexivity.
  - intros H. rewrite (IH H). apply orb_true_r.
Qed.

Lemma exact_case_listed (name : string) (cols : list string) :
  exact_case name cols -> existsb (same_column name) cols = listed name cols.
Proof.
  unfold exact_case, listed. induction cols as [|c cols IH]; intros H; simpl;
    [reflexivity|].
  rewrite IH by (intros c' Hc'; apply H; right; exact Hc').
  destruct (same_column name c) eqn:Hs.
  - rewrite (H c (or_introl eq_refl) Hs). rewrite String.eqb_refl. reflexivity.
  - destruct (String.eqb_spec name c) as [->|_]; [|reflexivity].
    unfold same_column in Hs. rewrite String.eqb_refl in Hs. discriminate.
Qed.

(** X21: the migration never removes or reorders a column (the columns
    afterwards are the old ones followed by what was added), leaves a
    missing file, a non-database file and a database without the table
    as they were, and on a table whose column names do not clash by
    letter case it ends with both [browser_type] and [bitbrowser_id]
    present. *)
Theorem migrate_adds_both_columns (f : db_file) :
  match f with
  | Database (Some cols) =>
      exists added,
        (migrate f).1 = Database (Some (cols ++ added)%list) /\
        (exact_case "browser_type" cols -> exact_case "bitbrowser_id" cols ->
         listed "browser_type" (cols ++ added)%list = true /\
         listed "bitbrowser_id" (cols ++ added)%list = true)
  | _ => (migrate f).1 = f
  end.
Proof.
  destruct f as [| |[cols|]]; try reflexivity.
  unfold migrate, ensure_column, add_column, table_columns.
  destruct (listed "browser_type" cols) eqn:L1;
    destruct (listed "bitbrowser_id" cols) eqn:L2.
  - exists []. rewrite app_nil_r. simpl. split; [reflexivity|]. auto.
  - destruct (existsb (same_column "bitbrowser_id") cols) eqn:V2.
    + exists []. rewrite app_nil_r. simpl. split; [reflexivity|].
      intros _ H2. rewrite (exact_case_listed _ _ H2) in V2. congruence.
    + exists ["bitbrowser_id"]. simpl. split; [reflexivity|]. intros _ _.
      rewrite !listed_app, L1. split; [reflexivity|]. apply orb_true_r.
  - destruct (existsb (same_column "browser_type") cols) eqn:V1.
    + exists []. rewrite app_nil_r. simpl. split; [reflexivity|].
      intros H1 _. rewrite (exact_case_listed _ _ H1) in V1. congruence.
    + exists ["browser_type"]. simpl. split; [reflexivity|]. intros _ _.
      rewrite !listed_app, L2. split; [apply orb_true_r|reflexivity].
  - destruct (existsb (same_column "browser_type") cols) eqn:V1.
    + exists []. rewrite app_nil_r. simpl. split; [reflexivity|].
      intros H1 _. rewrite (exact_case_listed _ _ H1) in V1. congruence.
    + rewrite existsb_app. simpl existsb at 2.
      replace (same_column "bitbrowser_id" "browser_type") with false
        by reflexivity.
      rewrite !orb_false_r.
      destruct (existsb (same_column "bitbrowser_id") cols) eqn:V2.
      * exists ["browser_type"]. simpl. split; [reflexivity|].
        intros _ H2. rewrite (exact_case_listed _ _ H2) in V2. congruence.
      * exists ["browser_type"; "bitbrowser_id"]. simpl.
        rewrite <- app_assoc. split; [reflexivity|]. intros _ _.
        rewrite !listed_app. split; apply orb_true_r.
Qed.

(** X22: running the migration a second time changes nothing: the
    database after two runs is the database after one. *)
Theorem migrate_idempotent (f : db_file) :
  (migrate (migrate f).1).1 = (migrate f).1.
Proof.
  destruct f as [| |[cols|]]; try reflexivity.
  unfold migrate at 2 3. unfold ensure_column, add_column, table_columns.
  destruct (listed "browser_type" cols) eqn:L1;
    destruct (listed "bitbrowser_id" cols) eqn:L2.
  - simpl. unfold migrate, ensure_column, table_columns. rewrite L1, L2.
    reflexivity.
  - destruct (existsb (same_column "bitbrowser_id") cols) eqn:V2; simpl.
    + unfold migrate, ensure_column, add_column, table_columns.
      rewrite L1, L2, V2. reflexivity.
    + unfold migrate, ensure_column, table_columns.
      rewrite !listed_app, L1, L2. reflexivity.
  - destruct (existsb (same_column "browser_type") cols) eqn:V1; simpl.
    + unfold migrate, ensure_column, add_column, table_columns.
      rewrite L1, V1. reflexivity.
    + unfold migrate, ensure_column, table_columns.
      rewrite !listed_app, L1, L2. reflexivity.
  - destruct (existsb (same_column "browser_type") cols) eqn:V1; simpl.
    + unfold migrate, ensure_column, add_column, table_columns.
      rewrite L1, V1. reflexivity.
    + rewrite existsb_app. simpl existsb at 2.
      replace (same_column "bitbrowser_id" "browser_type") with false
        by reflexivity.
      rewrite !orb_false_r.
      destruct (existsb (same_column "bitbrowser_id") cols) eqn:V2; simpl.
      * unfold migrate, ensure_column, add_column, table_columns.
        rewrite !listed_app, L1, L2. simpl.
        rewrite existsb_app, V2. reflexivity.
      * unfold migrate, ensure_column, table_columns.
        rewrite !listed_app, L1, L2. reflexivity.
Qed.

End MigrationFacts.

(** * The connector's queries and the manager *)

(** X23: the connector's [list_browsers] always asks for page 0 with a
    page size of 100, adding the name filter only when a non-empty name
    is given: it never reaches beyond the first hundred windows. *)
Theorem connector_lists_first_page_only (E : env)
    (self : Connector.BitBrowserConnector) (name : option string) (w : world) :
  exists logs,
    trace (ConnectorQueries.list_browsers E self name w).2
    = (trace w
       ++ EPost (base_url (Connector.api self)) "/browser/list"
            (JObj ([("page", JNum 0); ("pageSize", JNum 100)]
                   ++ match name with
                      | Some n => if str_truthy n then [("name", JStr n)] else []
                      | None => []
                      end)) :: logs)%list /\
    Forall is_log logs.
Proof.
  unfold ConnectorQueries.list_browsers, Api.list_browsers.
  set (data := if opt_truthy name then _ else _).
  assert (Hdata : data = ([("page", JNum 0); ("pageSize", JNum 100)]
                          ++ match name with
                             | Some n => if str_truthy n
                                         then [("name", JStr n)] else []
                             | None => []
                             end)%list).
  { subst data. destruct name as [n|]; simpl; [|reflexivity].
    destruct (str_truthy n); reflexivity. }
  assert (Htr : payload_of (Some (JObj data)) = JObj data).
  { rewrite Hdata. reflexivity. }
  rewrite <- Hdata. clearbody data.
  destruct (request_total E (Connector.api self) "/browser/list"
              (Some (JObj data)) w) as (j & logs & Hr & Hlogs).
  exists logs. split; [|exact Hlogs].
  unfold bind. rewrite Hr, Htr. unfold lift, ret. simpl.
  split_py; reflexivity.
Qed.

(** X24: when the creation request fails at the HTTP layer,
    [create_new_browser_window] returns None and its last word is the
    error log line; nothing is raised. *)
Theorem create_window_failure_is_logged (E : env)
    (self : Connector.BitBrowserConnector) (name platform_url : string)
    (remark : option string) (proxy_config : option (list (string * json)))
    (w : world) (o : http_outcome) :
  (forall endpoint data,
      http E (trace w) (base_url (Connector.api self)) endpoint data = o) ->
  request_fails o = true ->
  exists w',
    ConnectorQueries.create_new_browser_window E self name platform_url remark
      proxy_config w
    = (Ret JNull, emit (ELog ERROR "创建浏览器窗口失败") w').
Proof.
  intros Ho Hf.
  unfold ConnectorQueries.create_new_browser_window,
    Api.create_browser_for_platform, Api.create_browser, bind.
  rewrite (request_failed_eq E (Connector.api self) _ _ w o)
    by (first [apply Ho | exact Hf]).
  run_monad. eexists. reflexivity.
Qed.

Lemma create_window_failure_is_logged_witness :
  request_fails (Response 500 "Internal Server Error" NotJson) = true /\
  exists w',
    ConnectorQueries.create_new_browser_window
      (Examples.env_answering (Response 500 "Internal Server Error" NotJson))
      Examples.connector0 "douyin-1" "https://www.douyin.com" None None
      Examples.w0
    = (Ret JNull, emit (ELog ERROR "创建浏览器窗口失败") w').
Proof.
  split; [reflexivity|].
  apply (create_window_failure_is_logged
           (Examples.env_answering (Response 500 "Internal Server Error" NotJson))
           Examples.connector0 "douyin-1" "https://www.douyin.com" None None
           Examples.w0 (Response 500 "Internal Server Error" NotJson));
    [intros; reflexivity|reflexivity].
Defined.

(** X25: a manager is built with a connector exactly when its type,
    compared without regard to letter case, is "bitbrowser"; the
    connector then carries the given address, and building a manager
    never fails. *)
Theorem manager_has_connector_iff_remote (browser_type bitbrowser_url : string)
    (local_chrome_path : option string) (headless : bool) (w : world) :
  exists (mgr : Connector.BrowserManager) (w' : world),
    Connector.manager_init browser_type bitbrowser_url local_chrome_path
      headless w = (Ret mgr, w') /\
    Connector.browser_type mgr = Connector.lower browser_type /\
    (Connector.lower browser_type = "bitbrowser" ->
     exists c, Connector.connector mgr = Some c /\
               Connector.bit_browser_url c = bitbrowser_url /\
               Connector.current_browser_id c = None) /\
    (Connector.lower browser_type <> "bitbrowser" ->
     Connector.connector mgr = None /\ w' = w).
Proof.
  unfold Connector.manager_init.
  destruct (String.eqb_spec (Connector.lower browser_type) "bitbrowser")
    as [Heq|Hne].
  - unfold Connector.init, bind, Api.get_bitbrowser_api, Api.init, ret.
    destruct (_default_api w) as [a|]; simpl; do 2 eexists;
      (split; [reflexivity|]); simpl;
      (split; [reflexivity|]);
      (split; [intros _; eexists; repeat split; reflexivity|]);
      intros H; contradiction.
  - do 2 eexists. split; [reflexivity|]. simpl. split; [reflexivity|].
    split; [intros H; contradiction|]. intros _. split; reflexivity.
Qed.
